(** * The margin compositor of [assets/images/reshape_icon.py]

    [add_margin] opens [Logo_Rounded.png], computes a margin of 20% of each
    dimension with [int(width * 0.2)], allocates a transparent RGBA canvas,
    pastes the source at the margin offset with the source itself as mask,
    saves the canvas as [Logo_Rounded_with_margin.png] and prints the new
    dimensions; any exception is caught and printed.

    The script is embedded together with the parts of Python and Pillow it
    calls: binary64 arithmetic for [width * 0.2] (the Standard Library's
    [SpecFloat]), and Pillow's [Image.open], [Image.new], [Image.paste]
    (with [ImagingPaste] of [libImaging/Paste.c]) and [Image.save]. *)

From Stdlib Require Import ZArith Lia.
From Stdlib Require Import Floats.SpecFloat.
From stdpp Require Import gmap strings list pretty.

Local Open Scope Z_scope.

(** ** Python exceptions

    The exception classes the modelled operations raise. Every one of them
    derives from [Exception] ([FileNotFoundError] and [PermissionError]
    through [OSError], [UnidentifiedImageError] through [OSError],
    [OverflowError] through [ArithmeticError], Pillow's
    [DecompressionBombError] directly). *)

Inductive exn :=
| FileNotFoundError (filename : string)
| PermissionError (filename : string)
| UnidentifiedImageError (filename : string)
| OSError (msg : string)
| ValueError (msg : string)
| OverflowError (msg : string)
| DecompressionBombError (msg : string)
| MemoryError.

(** [str(e)], what the f-string [{e}] renders. *)
Definition str (e : exn) : string :=
  match e with
  | FileNotFoundError f => "[Errno 2] No such file or directory: '" +:+ f +:+ "'"
  | PermissionError f => "[Errno 13] Permission denied: '" +:+ f +:+ "'"
  | UnidentifiedImageError f => "cannot identify image file '" +:+ f +:+ "'"
  | OSError msg => msg
  | ValueError msg => msg
  | OverflowError msg => msg
  | DecompressionBombError msg => msg
  | MemoryError => EmptyString
  end.

(** [except Exception]: the classes above are all subclasses of
    [Exception]. *)
Definition is_Exception (e : exn) : bool :=
  match e with
  | FileNotFoundError _ | PermissionError _ | UnidentifiedImageError _
  | OSError _ | ValueError _ | OverflowError _ | DecompressionBombError _
  | MemoryError => true
  end.

(** ** Python floats: IEEE 754 binary64 *)

Module PyFloat.

Definition prec : Z := 53.
Definition emax : Z := 1024.

(** The literal [0.2]: the binary64 nearest to 1/5,
    [0x3FC999999999999A] = 7205759403792794 * 2^-55. *)
Definition lit_0_2 : spec_float := S754_finite false 7205759403792794 (-55).

(** [float(n)] for a Python int, correctly rounded (half to even);
    [OverflowError] past the largest finite float. *)
Definition of_int (n : Z) : exn + spec_float :=
  match binary_normalize prec emax n 0 false with
  | S754_infinity _ => inl (OverflowError "int too large to convert to float")
  | x => inr x
  end.

(** [n * y] for an int [n] and a float [y]: the int is converted, then
    the floats are multiplied. *)
Definition int_mul (n : Z) (y : spec_float) : exn + spec_float :=
  match of_int n with
  | inl e => inl e
  | inr x => inr (SFmul prec emax x y)
  end.

(** [int(x)]: truncation toward zero. *)
Definition to_int (x : spec_float) : exn + Z :=
  match x with
  | S754_zero _ => inr 0
  | S754_finite s m e => inr (cond_Zopp s (Z.shiftl (Zpos m) e))
  | S754_infinity _ => inl (OverflowError "cannot convert float infinity to integer")
  | S754_nan => inl (ValueError "cannot convert float NaN to integer")
  end.

End PyFloat.

(** [int(n * 0.2)], lines 13 and 14. *)
Definition margin (n : Z) : exn + Z :=
  match PyFloat.int_mul n PyFloat.lit_0_2 with
  | inl e => inl e
  | inr x => PyFloat.to_int x
  end.

(** ** Pillow images *)

Module Pillow.

(** The 8-bit image modes without a palette. [Mode_1] and [Mode_L] store
    one byte per pixel ([image8]), the others four ([image32]). *)
Inductive mode := Mode_1 | Mode_L | Mode_LA | Mode_RGB | Mode_RGBA.

#[global] Instance mode_eq_dec : EqDecision mode.
Proof. solve_decision. Defined.

Definition pixelsize (m : mode) : Z :=
  match m with
  | Mode_1 | Mode_L => 1
  | Mode_LA | Mode_RGB | Mode_RGBA => 4
  end.

(** One pixel of the storage, four bytes. RGBA keeps R, G, B, A in bands
    0 to 3; RGB keeps a pad byte in band 3; LA keeps L in bands 0 to 2
    and A in band 3; the one-byte modes use band 0 only. *)
Record pixel := Pixel { band0 : Z; band1 : Z; band2 : Z; band3 : Z }.

#[global] Instance pixel_eq_dec : EqDecision pixel.
Proof. solve_decision. Defined.

(** A loaded image: mode, [size] = (width, height), and the rows of the
    pixel storage ([image32[y][x]], resp. [image8[y][x]]). *)
Record image := Image {
  im_mode : mode;
  im_size : Z * Z;
  im_data : list (list pixel)
}.

Definition xsize (im : image) : Z := fst (im_size im).
Definition ysize (im : image) : Z := snd (im_size im).

Definition getpixel (im : image) (x y : nat) : option pixel :=
  im_data im !! y ≫= fun row => row !! x.

(** Image dimensions are C [int]s. *)
Definition INT_MAX : Z := 2147483647.

Definition byte_range (v : Z) : Prop := 0 <= v <= 255.

Definition pixel_ok (p : pixel) : Prop :=
  byte_range (band0 p) /\ byte_range (band1 p) /\
  byte_range (band2 p) /\ byte_range (band3 p).

(** [Image.MAX_IMAGE_PIXELS]: [int(1024 * 1024 * 1024 // 4 // 3)]. An image
    of more than twice as many pixels is refused when it is opened. *)
Definition MAX_IMAGE_PIXELS : Z := 89478485.

(** A decoded image: positive dimensions within [int], no more pixels than
    [Image.open] lets through, storage of that shape, every band a byte. *)
Definition wf_image (im : image) : Prop :=
  1 <= xsize im <= INT_MAX /\ 1 <= ysize im <= INT_MAX /\
  xsize im * ysize im <= 2 * MAX_IMAGE_PIXELS /\
  length (im_data im) = Z.to_nat (ysize im) /\
  Forall (fun row => length row = Z.to_nat (xsize im) /\ Forall pixel_ok row)
         (im_data im).

#[global] Instance wf_image_dec (im : image) : Decision (wf_image im).
Proof. unfold wf_image, pixel_ok, byte_range. apply _. Defined.

(** *** [Image.convert("RGBA")]: [bit2rgb], [l2rgb], [la2rgb], [rgb2rgba]
    of [libImaging/Convert.c]; alpha is 255 where the source has none. *)
Definition convert_pixel_RGBA (m : mode) (p : pixel) : pixel :=
  match m with
  | Mode_1 => let v := if band0 p =? 0 then 0 else 255 in Pixel v v v 255
  | Mode_L => Pixel (band0 p) (band0 p) (band0 p) 255
  | Mode_LA => Pixel (band0 p) (band0 p) (band0 p) (band3 p)
  | Mode_RGB => Pixel (band0 p) (band1 p) (band2 p) 255
  | Mode_RGBA => p
  end.

Definition convert_RGBA (im : image) : image :=
  Image Mode_RGBA (im_size im)
        (map (map (convert_pixel_RGBA (im_mode im))) (im_data im)).

(** *** [ImagingPaste] of [libImaging/Paste.c] *)

(** A value stored into a [UINT8]. *)
Definition UINT8 (a : Z) : Z := a mod 256.

Definition SHIFTFORDIV255 (a : Z) : Z := Z.shiftr (Z.shiftr a 8 + a) 8.
Definition DIV255 (a : Z) : Z := SHIFTFORDIV255 (a + 128).
Definition BLEND (mask in1 in2 : Z) : Z :=
  UINT8 (DIV255 (in1 * (255 - mask) + in2 * mask)).

Definition blend_pixel (a : Z) (o i : pixel) : pixel :=
  Pixel (BLEND a (band0 o) (band0 i)) (BLEND a (band1 o) (band1 i))
        (BLEND a (band2 o) (band2 i)) (BLEND a (band3 o) (band3 i)).

(** The loop bodies of [paste_mask_1], [paste_mask_L] and
    [paste_mask_RGBA] for a four-byte destination: mask pixel, current
    destination pixel, source pixel. *)
Definition paste_mask_1 (m o i : pixel) : pixel :=
  if band0 m =? 0 then o else i.
Definition paste_mask_L (m o i : pixel) : pixel := blend_pixel (band0 m) o i.
Definition paste_mask_RGBA (m o i : pixel) : pixel := blend_pixel (band3 m) o i.

(** The dispatch on the mode of the mask: ["1"], ["L"], ["LA"] and ["RGBA"]
    have a paste function, any other mode is a bad transparency mask. *)
Definition paste_op (mask_mode : mode) : option (pixel -> pixel -> pixel -> pixel) :=
  match mask_mode with
  | Mode_1 => Some paste_mask_1
  | Mode_L => Some paste_mask_L
  | Mode_LA | Mode_RGBA => Some paste_mask_RGBA
  | Mode_RGB => None
  end.

(** The loops of the paste functions have one shape:
    [for (k = 0; k < n; k++) out[k + d] = g(out[k + d], a[k + s], b[k + s])].
    C does not check the indices; here an index outside a list leaves
    [out] as it is, which [ImagingPaste] rules out by clipping. *)
Definition for_range {A B C : Type} (g : A -> B -> C -> A) (d s n : nat)
    (out : list A) (a : list B) (b : list C) : list A :=
  foldl (fun out k =>
           match out !! (k + d)%nat, a !! (k + s)%nat, b !! (k + s)%nat with
           | Some o, Some x, Some y => <[(k + d)%nat := g o x y]> out
           | _, _, _ => out
           end) out (seq 0 n).

(** The inner loop [for (x = 0; x < xsize; x++)] over one line. *)
Definition paste_line (op : pixel -> pixel -> pixel -> pixel)
    (dx sx xs : nat) (out inp mask : list pixel) : list pixel :=
  for_range (fun o i m => op m o i) dx sx xs out inp mask.

(** The outer loop [for (y = 0; y < ysize; y++)]. *)
Definition paste_region (op : pixel -> pixel -> pixel -> pixel)
    (dx dy sx sy xs ys : nat) (out inp mask : list (list pixel))
    : list (list pixel) :=
  for_range (paste_line op dx sx xs) dy sy ys out inp mask.

(** [ImagingNew] followed by [ImagingFill]: storage of the given size, every
    pixel the given colour. *)
Definition ImagingFill (m : mode) (size : Z * Z) (color : pixel) : image :=
  Image m size (replicate (Z.to_nat (snd size)) (replicate (Z.to_nat (fst size)) color)).

(** Clipping of one axis: [if (dx0 < 0) ...; if (dx0 + xsize > imOut->xsize) ...].
    Returns (size, source offset, destination offset). *)
Definition clip (d0 size limit : Z) : Z * Z * Z :=
  let '(size, s0, d0) := if d0 <? 0 then (size + d0, - d0, 0) else (size, 0, d0) in
  let size := if limit <? d0 + size then limit - d0 else size in
  (size, s0, d0).

Definition ImagingPaste (imOut imIn imMask : image) (box : Z * Z * Z * Z)
    : exn + image :=
  let '(dx0, dy0, dx1, dy1) := box in
  let xs := dx1 - dx0 in
  let ys := dy1 - dy0 in
  if negb ((xs =? xsize imIn) && (ys =? ysize imIn)
           && (pixelsize (im_mode imOut) =? pixelsize (im_mode imIn)))
  then inl (ValueError "images do not match")
  else if negb ((xs =? xsize imMask) && (ys =? ysize imMask))
  then inl (ValueError "images do not match")
  else
    let '(xs, sx0, dx0) := clip dx0 xs (xsize imOut) in
    let '(ys, sy0, dy0) := clip dy0 ys (ysize imOut) in
    if (xs <=? 0) || (ys <=? 0) then inr imOut
    else
      match paste_op (im_mode imMask) with
      | Some op =>
          inr (Image (im_mode imOut) (im_size imOut)
                     (paste_region op (Z.to_nat dx0) (Z.to_nat dy0)
                                   (Z.to_nat sx0) (Z.to_nat sy0)
                                   (Z.to_nat xs) (Z.to_nat ys)
                                   (im_data imOut) (im_data imIn) (im_data imMask)))
      | None => inl (ValueError "bad transparency mask")
      end.

End Pillow.

Import Pillow.

(** ** The world of one run: files, environment faults, standard output *)

(** What a path holds. A truncated image file has a readable header but
    its pixel data fails to decode with [OSError cause]. *)
Inductive file :=
| ImageFile (im : image)
| TruncatedImageFile (m : mode) (size : Z * Z) (cause : string)
| OtherFile.

(** [alloc_fault] and [write_fault] are the failures the environment
    injects: whether the storage of an image of a given size can be
    allocated, and whether writing a path fails, and if so what is left at
    the path ([None]: the path is as it was, [Some f]: a partial file). *)
Record world := World {
  fs : gmap string file;
  alloc_fault : Z * Z -> option exn;
  write_fault : string -> option (exn * option file);
  stdout : list string
}.

Definition set_fs (f : gmap string file) (w : world) : world :=
  World f (alloc_fault w) (write_fault w) (stdout w).

(** Computations that read and change the world and may raise. *)
Definition M (A : Type) : Type := world -> world * (exn + A).

Definition ret {A} (a : A) : M A := fun w => (w, inr a).
Definition raise {A} (e : exn) : M A := fun w => (w, inl e).
Definition bind {A B} (c : M A) (k : A -> M B) : M B :=
  fun w => match c w with
           | (w', inr a) => k a w'
           | (w', inl e) => (w', inl e)
           end.
Definition lift {A} (r : exn + A) : M A :=
  match r with
  | inl e => raise e
  | inr a => ret a
  end.

Notation "x <- c ;; k" := (bind c (fun x => k))
  (at level 100, c at next level, right associativity).
Notation "c ;;; k" := (bind c (fun _ => k))
  (at level 100, right associativity).

(** [try: body except Exception as e: handler(e)]. *)
Definition try_except_Exception (body : M unit) (handler : exn -> M unit) : M unit :=
  fun w => match body w with
           | (w', inr tt) => (w', inr tt)
           | (w', inl e) => if is_Exception e then handler e w' else (w', inl e)
           end.

(** [print(s)]. *)
Definition print (s : string) : M unit :=
  fun w => (World (fs w) (alloc_fault w) (write_fault w) (stdout w ++ [s]), inr tt).

(** ** Pillow's Python layer *)

(** What [Image.open] returns: mode and size come from the header, the
    pixel data is decoded on the first [load()]. *)
Record opened_image := Opened {
  o_mode : mode;
  o_size : Z * Z;
  o_pixels : exn + list (list pixel)
}.

(** [_decompression_bomb_check(size)]: more than twice [MAX_IMAGE_PIXELS]
    pixels raise [DecompressionBombError]. (More than [MAX_IMAGE_PIXELS]
    only warn, on standard error, which is not modelled.) *)
Definition decompression_bomb_check (size : Z * Z) : exn + unit :=
  let pixels := Z.max 1 (fst size) * Z.max 1 (snd size) in
  if 2 * MAX_IMAGE_PIXELS <? pixels
  then inl (DecompressionBombError
              ("Image size (" +:+ pretty pixels +:+ " pixels) exceeds limit of "
               +:+ pretty (2 * MAX_IMAGE_PIXELS)
               +:+ " pixels, could be decompression bomb DOS attack."))
  else inr tt.

(** A driver that reads a size that is not positive has not identified the
    file ([ImageFile.__init__]); the size of an identified file is then
    checked against the pixel limit. *)
Definition check_header (path : string) (size : Z * Z) : exn + unit :=
  if (fst size <=? 0) || (snd size <=? 0)
  then inl (UnidentifiedImageError path)
  else decompression_bomb_check size.

(** The header is read and its size checked; the pixel data is left for
    [load()]. *)
Definition open_file (path : string) (f : file) : exn + opened_image :=
  match f with
  | OtherFile => inl (UnidentifiedImageError path)
  | ImageFile im =>
      match check_header path (im_size im) with
      | inl e => inl e
      | inr _ => inr (Opened (im_mode im) (im_size im) (inr (im_data im)))
      end
  | TruncatedImageFile m size cause =>
      match check_header path size with
      | inl e => inl e
      | inr _ => inr (Opened m size (inl (OSError cause)))
      end
  end.

Definition Image_open (path : string) : M opened_image :=
  fun w => match fs w !! path with
           | None => (w, inl (FileNotFoundError path))
           | Some f => (w, open_file path f)
           end.

Definition load (img : opened_image) : exn + image :=
  match o_pixels img with
  | inl e => inl e
  | inr d => inr (Image (o_mode img) (o_size img) d)
  end.

(** [Image.new(mode, size, color)]: [_check_size], then the storage is
    allocated and filled with the colour. *)
Definition Image_new (m : mode) (size : Z * Z) (color : pixel) : M image :=
  fun w =>
    if (fst size <? 0) || (snd size <? 0)
    then (w, inl (ValueError "Width and height must be >= 0"))
    else match alloc_fault w size with
         | Some e => (w, inl e)
         | None => (w, inr (ImagingFill m size color))
         end.

(** [self.paste(im, box, mask)] for a two-item [box] and an RGBA [self]:
    the box is completed from [im.size], [im] is loaded and converted to
    the mode of [self] when it differs, the mask is loaded, and the core
    paste runs. *)
Definition Image_paste (self : image) (im : opened_image) (box : Z * Z)
    (mask : opened_image) : exn + image :=
  let size := o_size im in
  let box4 := (fst box, snd box, fst box + fst size, snd box + snd size) in
  match load im with
  | inl e => inl e
  | inr im' =>
      let im'' := if decide (im_mode self = im_mode im') then im' else convert_RGBA im' in
      match load mask with
      | inl e => inl e
      | inr mask' => ImagingPaste self im'' mask' box4
      end
  end.

(** [self.save(path, quality=95)]: the PNG encoding of the image, which is
    lossless and has no use for [quality], is written to the path, replacing
    what was there. A file is identified with the image it decodes to. *)
Definition Image_save (self : image) (path : string) : M unit :=
  fun w => match write_fault w path with
           | Some (e, None) => (w, inl e)
           | Some (e, Some partial) => (set_fs (<[path := partial]> (fs w)) w, inl e)
           | None => (set_fs (<[path := ImageFile self]> (fs w)) w, inr tt)
           end.

(** ** [add_margin] *)

Definition input_path : string := "Logo_Rounded.png".
Definition output_path : string := "Logo_Rounded_with_margin.png".

Definition created_message (new_width new_height : Z) : string :=
  "Created new image with dimensions " +:+ pretty new_width +:+ "x" +:+ pretty new_height.

Definition error_message (e : exn) : string :=
  "Error processing image: " +:+ str e.

(** The body of the [try], lines 7 to 29. *)
Definition add_margin_body : M unit :=
  img <- Image_open input_path ;;
  let '(width, height) := o_size img in
  margin_w <- lift (margin width) ;;
  margin_h <- lift (margin height) ;;
  let new_width := width + 2 * margin_w in
  let new_height := height + 2 * margin_h in
  new_img <- Image_new Mode_RGBA (new_width, new_height) (Pixel 0 0 0 0) ;;
  new_img <- lift (Image_paste new_img img (margin_w, margin_h) img) ;;
  Image_save new_img output_path ;;;
  print (created_message new_width new_height).

Definition add_margin : M unit :=
  try_except_Exception add_margin_body (fun e => print (error_message e)).

(** The world after a run that saved [out] at the output path and printed
    its dimensions, and the world after a run that left the files alone and
    printed the failure [e]; the printed lines are spelled out. *)
Definition saved (wd : world) (out : image) : world :=
  World (<[output_path := ImageFile out]> (fs wd)) (alloc_fault wd) (write_fault wd)
        (stdout wd ++ ["Created new image with dimensions " +:+ pretty (xsize out)
                       +:+ "x" +:+ pretty (ysize out)]).

Definition reported (wd : world) (e : exn) : world :=
  World (fs wd) (alloc_fault wd) (write_fault wd)
        (stdout wd ++ ["Error processing image: " +:+ str e]).

(** ** Sample inputs and repeated runs *)

(** A world in which nothing fails, with empty standard output. *)
Definition quiet_world (files : gmap string file) : world :=
  World files (fun _ => None) (fun _ => None) [].

(** An image of one colour. *)
Definition solid (m : mode) (w h : nat) (p : pixel) : image :=
  Image m (Z.of_nat w, Z.of_nat h) (replicate h (replicate w p)).

Definition red : pixel := Pixel 255 0 0 255.

(** A 5x1 RGBA strip: a half-transparent red pixel, an opaque one, a fully
    transparent grey one, two opaque ones. *)
Definition strip_5 : image :=
  Image Mode_RGBA (5, 1) [[Pixel 255 0 0 128; red; Pixel 9 9 9 0; red; red]].

(** The file the last run wrote becomes the input of the next run. *)
Definition feed_back (w : world) : world :=
  match fs w !! output_path with
  | Some f => set_fs (<[input_path := f]> (fs w)) w
  | None => w
  end.

(** The world after [n + 1] runs, each run after the first on the output
    of the run before it. *)
Fixpoint runs (n : nat) (w : world) : world :=
  match n with
  | O => fst (add_margin w)
  | S n => fst (add_margin (feed_back (runs n w)))
  end.

(** The image a world holds at the output path. *)
Definition output_image (w : world) : option image :=
  match fs w !! output_path with
  | Some (ImageFile im) => Some im
  | _ => None
  end.

(** * Properties *)

(** ** Binary64: [int(n * 0.2)] is the integer fifth *)

Section Binary64.
Import PyFloat.

Lemma digits2_pos_bounds (p : positive) :
  2 ^ (Zpos (digits2_pos p) - 1) <= Zpos p < 2 ^ Zpos (digits2_pos p).
Proof.
  induction p as [p IH | p IH |]; cbn [digits2_pos]; [| |simpl; lia].
  all: rewrite Pos2Z.inj_succ, Z.pow_succ_r by lia.
  all: replace (Z.succ (Z.pos (digits2_pos p)) - 1)
         with (Z.succ (Z.pos (digits2_pos p) - 1)) by lia.
  all: rewrite Z.pow_succ_r by lia; lia.
Qed.

Lemma shr_1_m (r : shr_record) :
  0 <= shr_m r -> shr_m (shr_1 r) = shr_m r / 2.
Proof.
  destruct r as [[|[p|p|]|p] rb sb]; cbn; intros H; try lia; try reflexivity.
  - rewrite Pos2Z.inj_xI. Z.div_mod_to_equations. lia.
  - rewrite Pos2Z.inj_xO. Z.div_mod_to_equations. lia.
Qed.

Lemma iter_pos_shr_m (n : positive) :
  forall r, 0 <= shr_m r ->
    shr_m (SpecFloat.iter_pos shr_1 n r) = shr_m r / 2 ^ Zpos n.
Proof.
  induction n as [n IH | n IH |]; intros r Hr; cbn [SpecFloat.iter_pos].
  - assert (H1 : 0 <= shr_m (shr_1 r)) by (rewrite shr_1_m by done; apply Z.div_pos; lia).
    assert (H2 : 0 <= shr_m (SpecFloat.iter_pos shr_1 n (shr_1 r)))
      by (rewrite IH by done; apply Z.div_pos; lia).
    rewrite IH, IH, shr_1_m by done.
    rewrite !Z.div_div by lia. f_equal.
    change (Z.pos n~1) with (2 * Z.pos n + 1).
    rewrite Z.pow_add_r, Z.pow_twice_r by lia.
    change (2 ^ 1) with 2. lia.
  - assert (H2 : 0 <= shr_m (SpecFloat.iter_pos shr_1 n r))
      by (rewrite IH by done; apply Z.div_pos; lia).
    rewrite IH, IH by done.
    rewrite !Z.div_div by lia. f_equal.
    change (Z.pos n~0) with (2 * Z.pos n). rewrite Z.pow_twice_r. lia.
  - rewrite shr_1_m by done. reflexivity.
Qed.

Lemma round_nearest_even_cases (m : Z) (l : location) :
  round_nearest_even m l = m \/ round_nearest_even m l = m + 1.
Proof.
  destruct l as [|[]]; cbn; auto. destruct (Z.even m); auto.
Qed.

Lemma shr_spec (r : shr_record) (e n : Z) :
  0 <= n -> 0 <= shr_m r ->
  exists r', shr r e n = (r', e + n) /\ shr_m r' = shr_m r / 2 ^ n.
Proof.
  intros Hn Hr. destruct n as [|p|p]; [| |lia]; cbn [shr].
  - exists r. rewrite Z.add_0_r, Z.pow_0_r, Z.div_1_r. done.
  - eexists. split; [reflexivity|]. by apply iter_pos_shr_m.
Qed.

Lemma digits2_pos_unique (p : positive) (k : Z) :
  2 ^ (k - 1) <= Zpos p < 2 ^ k -> Zpos (digits2_pos p) = k.
Proof.
  intros [Hl Hu]. pose proof (digits2_pos_bounds p) as [Hl' Hu'].
  assert (0 < k) by (destruct (Z.ltb_spec 0 k); [done|]; rewrite Z.pow_neg_r in Hl by lia;
                     destruct (Z.eq_dec k 0); [subst; simpl in *; lia | rewrite Z.pow_neg_r in Hu by lia; lia]).
  assert (k - 1 < Zpos (digits2_pos p)).
  { apply (Z.pow_lt_mono_r_iff 2); lia. }
  assert (Zpos (digits2_pos p) - 1 < k).
  { apply (Z.pow_lt_mono_r_iff 2); lia. }
  lia.
Qed.

Lemma binary_round_aux_exact (m : positive) (e : Z) :
  Zpos (digits2_pos m) = prec -> emin prec emax <= e <= emax - prec ->
  binary_round_aux prec emax false (Zpos m) e loc_Exact = S754_finite false m e.
Proof.
  intros Hd He. unfold binary_round_aux, shr_fexp. cbn [Zdigits2 shr_record_of_loc].
  rewrite Hd. unfold fexp.
  replace (Z.max (prec + e - prec) (emin prec emax) - e) with 0 by lia.
  cbn [shr shr_m loc_of_shr_record round_nearest_even Zdigits2 shr_record_of_loc].
  rewrite Hd.
  replace (Z.max (prec + e - prec) (emin prec emax) - e) with 0 by lia.
  cbn [shr shr_m]. destruct (Z.leb_spec e (emax - prec)); [done | lia].
Qed.

Lemma to_int_renormalize (R e' : Z) :
  2 ^ 52 <= R <= 2 ^ 53 -> emin prec emax <= e' < 0 ->
  to_int (let '(mrs, e'') := shr_fexp prec emax R e' loc_Exact in
          match shr_m mrs with
          | Z0 => S754_zero false
          | Zpos m => if e'' <=? emax - prec then S754_finite false m e''
                      else S754_infinity false
          | Zneg _ => S754_nan
          end) = inr (R / 2 ^ (- e')).
Proof.
  intros HR He. destruct R as [|pr|pr]; [lia | | lia].
  unfold shr_fexp, fexp. cbn [Zdigits2].
  destruct (Z.eq_dec (Zpos pr) (2 ^ 53)) as [E53 | N53].
  - assert (HD : Zpos (digits2_pos pr) = 54)
      by (apply digits2_pos_unique; rewrite E53; simpl; lia).
    rewrite HD.
    replace (Z.max (54 + e' - prec) (emin prec emax) - e') with 1
      by (unfold prec in *; lia).
    destruct (shr_spec (shr_record_of_loc (Zpos pr) loc_Exact) e' 1)
      as (r2 & -> & Hr2); [lia | simpl; lia |].
    cbn [shr_record_of_loc shr_m] in Hr2. rewrite Hr2, E53.
    change (2 ^ 53 / 2 ^ 1) with (Zpos 4503599627370496).
    destruct (Z.leb_spec (e' + 1) (emax - prec)); [| unfold emax, prec in *; lia].
    cbn [to_int cond_Zopp]. rewrite Z.shiftl_div_pow2 by lia. f_equal.
    change (Zpos 4503599627370496) with (2 ^ 53 / 2).
    rewrite Z.div_div by lia. f_equal.
    rewrite <- (Z.pow_succ_r 2) by lia. f_equal. lia.
  - assert (HD : Zpos (digits2_pos pr) = 53)
      by (apply digits2_pos_unique; change (53 - 1) with 52; lia).
    rewrite HD.
    replace (Z.max (53 + e' - prec) (emin prec emax) - e') with 0
      by (unfold prec in *; lia).
    cbn [shr shr_record_of_loc shr_m].
    destruct (Z.leb_spec e' (emax - prec)); [| unfold emax, prec in *; lia].
    cbn [to_int cond_Zopp]. by rewrite Z.shiftl_div_pow2 by lia.
Qed.

Lemma to_int_binary_round_aux (M : positive) (e : Z) :
  prec <= Zpos (digits2_pos M) ->
  emin prec emax <= Zpos (digits2_pos M) + e - prec < 0 ->
  exists R,
    (R = Zpos M / 2 ^ (Zpos (digits2_pos M) - prec) \/
     R = Zpos M / 2 ^ (Zpos (digits2_pos M) - prec) + 1) /\
    to_int (binary_round_aux prec emax false (Zpos M) e loc_Exact)
    = inr (R / 2 ^ (prec - Zpos (digits2_pos M) - e)).
Proof.
  set (D := Zpos (digits2_pos M)). intros HD He.
  pose proof (digits2_pos_bounds M) as HM. fold D in HM.
  unfold binary_round_aux. unfold shr_fexp at 1. cbn [Zdigits2]. fold D.
  unfold fexp at 1.
  replace (Z.max (D + e - prec) (emin prec emax) - e) with (D - prec) by lia.
  destruct (shr_spec (shr_record_of_loc (Zpos M) loc_Exact) e (D - prec))
    as (r1 & -> & Hr1); [lia | simpl; lia |].
  cbn [shr_record_of_loc shr_m] in Hr1. cbv beta iota.
  set (q := Zpos M / 2 ^ (D - prec)) in *.
  assert (Hq : 2 ^ 52 <= q < 2 ^ 53).
  { assert (0 < 2 ^ (D - prec)) by (apply Z.pow_pos_nonneg; lia).
    assert (E1 : 2 ^ (D - 1) = 2 ^ (D - prec) * 2 ^ 52)
      by (rewrite <- Z.pow_add_r by (unfold prec in *; lia); f_equal; unfold prec; lia).
    assert (E2 : 2 ^ D = 2 ^ (D - prec) * 2 ^ 53)
      by (rewrite <- Z.pow_add_r by (unfold prec in *; lia); f_equal; unfold prec; lia).
    split; [apply Z.div_le_lower_bound | apply Z.div_lt_upper_bound]; lia. }
  exists (round_nearest_even (shr_m r1) (loc_of_shr_record r1)).
  split; [rewrite <- Hr1; apply round_nearest_even_cases|].
  rewrite to_int_renormalize.
  - do 3 f_equal. lia.
  - destruct (round_nearest_even_cases (shr_m r1) (loc_of_shr_record r1)) as [-> | ->]; lia.
  - lia.
Qed.

Lemma of_int_pos (p : positive) :
  Zpos p < 2 ^ 53 ->
  exists mz,
    of_int (Zpos p) = inr (S754_finite false mz (Zpos (digits2_pos p) - prec)) /\
    Zpos mz = Zpos p * 2 ^ (prec - Zpos (digits2_pos p)) /\
    Zpos (digits2_pos mz) = prec.
Proof.
  intros Hp. pose proof (digits2_pos_bounds p) as Hb.
  set (d := Zpos (digits2_pos p)) in *.
  assert (Hd : 1 <= d <= 53).
  { split; [subst d; lia|].
    assert (d - 1 < 53) by (apply (Z.pow_lt_mono_r_iff 2); lia). lia. }
  unfold of_int, binary_normalize, binary_round. fold d. unfold fexp, shl_align.
  replace (Z.max (d + 0 - prec) (emin prec emax) - 0) with (d - prec)
    by (unfold prec, emin, emax; lia).
  replace (Z.max (d + 0 - prec) (emin prec emax)) with (d - prec)
    by (unfold prec, emin, emax; lia).
  destruct (d - prec) as [|k|k] eqn:Ek; [| unfold prec in *; lia |].
  - exists p. assert (Hdp : d = prec) by lia.
    rewrite binary_round_aux_exact by (done || (unfold emin, emax, prec; lia)).
    rewrite Hdp, Z.sub_diag, Z.pow_0_r, Z.mul_1_r. done.
  - exists (Pos.iter xO p k).
    assert (Hmz : Zpos (Pos.iter xO p k) = Zpos p * 2 ^ (prec - d)).
    { change (Pos.iter xO p k) with (shift_pos k p).
      rewrite shift_pos_correct, Z.pow_pos_fold, Z.mul_comm.
      do 2 f_equal. lia. }
    assert (Hpow : 2 ^ 52 = 2 ^ (d - 1) * 2 ^ (prec - d) /\ 2 ^ 53 = 2 ^ d * 2 ^ (prec - d)).
    { rewrite <- !Z.pow_add_r by (unfold prec; lia).
      split; f_equal; unfold prec; lia. }
    assert (0 < 2 ^ (prec - d)) by (apply Z.pow_pos_nonneg; unfold prec; lia).
    assert (Hdz : Zpos (digits2_pos (Pos.iter xO p k)) = prec).
    { apply digits2_pos_unique. rewrite Hmz. change (prec - 1) with 52.
      change (2 ^ prec) with (2 ^ 53). destruct Hpow as [-> ->]. nia. }
    rewrite binary_round_aux_exact by (done || (unfold emin, emax, prec in *; lia)).
    done.
Qed.

Lemma margin_fifth (W : Z) : 0 <= W < 2 ^ 51 -> margin W = inr (W / 5).
Proof.
  intros HW. destruct W as [|p|p]; [reflexivity | | lia].
  unfold margin, int_mul.
  destruct (of_int_pos p) as (mz & -> & Hmz & Hdz); [lia|].
  pose proof (digits2_pos_bounds p) as Hp.
  pose proof (digits2_pos_bounds mz) as Hz. rewrite Hdz in Hz.
  change (prec - 1) with 52 in Hz. change (2 ^ prec) with (2 ^ 53) in Hz.
  set (d := Zpos (digits2_pos p)) in *.
  assert (Hd : 1 <= d <= 51).
  { split; [subst d; lia|].
    assert (d - 1 < 51) by (apply (Z.pow_lt_mono_r_iff 2); lia). lia. }
  unfold lit_0_2. cbn [SFmul xorb].
  set (M := (mz * 7205759403792794)%positive).
  assert (HM : Zpos M = Zpos p * 7205759403792794 * 2 ^ (prec - d))
    by (subst M; rewrite Pos2Z.inj_mul, Hmz; lia).
  pose proof (digits2_pos_bounds M) as HD.
  set (D := Zpos (digits2_pos M)) in *.
  assert (HMb : 2 ^ 104 <= Zpos M < 2 ^ 106) by (subst M; rewrite Pos2Z.inj_mul; lia).
  assert (HDv : 105 <= D <= 106).
  { assert (104 < D) by (apply (Z.pow_lt_mono_r_iff 2); lia).
    assert (D - 1 < 106) by (apply (Z.pow_lt_mono_r_iff 2); lia). lia. }
  destruct (to_int_binary_round_aux M (d - prec + -55)) as (R & HR & ->);
    fold D; [unfold prec; lia | unfold emin, emax, prec; lia |].
  f_equal.
  set (c := 2 ^ (prec - d)) in *.
  set (P := 2 ^ (D - prec)) in *.
  set (T := 2 ^ (prec - D - (d - prec + -55))).
  assert (Hc : 0 < c) by (apply Z.pow_pos_nonneg; unfold prec; lia).
  assert (HP : 0 < P) by (apply Z.pow_pos_nonneg; unfold prec; lia).
  assert (HT : 0 < T) by (apply Z.pow_pos_nonneg; unfold prec; lia).
  assert (HPT : P * T = 2 ^ 55 * c).
  { subst P T c. rewrite <- !Z.pow_add_r by (unfold prec; lia). f_equal. unfold prec. lia. }
  assert (HP53 : P <= 2 * Zpos p * c).
  { assert (HP' : P <= 2 ^ 53) by (apply Z.pow_le_mono_r; unfold prec; lia).
    assert (E53 : 2 ^ 53 = 2 ^ d * c)
      by (subst c; rewrite <- Z.pow_add_r by (unfold prec; lia); f_equal; unfold prec; lia).
    assert (Ed : 2 ^ d = 2 * 2 ^ (d - 1))
      by (rewrite <- Z.pow_succ_r by lia; f_equal; lia).
    assert (2 ^ d * c <= 2 * Zpos p * c) by (apply Z.mul_le_mono_nonneg_r; lia).
    lia. }
  set (q := Zpos M / P) in *.
  assert (Hq : q * P <= Zpos M) by (subst q; rewrite Z.mul_comm; apply Z.mul_div_le; lia).
  set (k := Zpos p / 5).
  assert (Hk : 5 * k <= Zpos p < 5 * k + 5) by (subst k; Z.div_mod_to_equations; lia).
  assert (Hlo : k * T <= q).
  { subst q. apply Z.div_le_lower_bound; [lia|].
    replace (P * (k * T)) with (k * 2 ^ 55 * c) by (rewrite <- Z.mul_assoc, <- HPT; lia).
    rewrite HM. apply Z.mul_le_mono_nonneg_r; lia. }
  assert (Hhi : q + 1 < (k + 1) * T).
  { apply (Z.mul_lt_mono_pos_r P); [lia|].
    replace ((k + 1) * T * P) with ((k + 1) * 2 ^ 55 * c)
      by (rewrite <- (Z.mul_assoc (k + 1)), <- HPT; lia).
    assert (Hs : (Zpos p * 7205759403792794 + 2 * Zpos p) * c < (k + 1) * 2 ^ 55 * c)
      by (apply Z.mul_lt_mono_pos_r; lia).
    clearbody q k T P c. lia. }
  assert (HR' : R = q \/ R = q + 1) by exact HR.
  clearbody q k T P c. symmetry. apply (Z.div_unique _ _ _ (R - T * k)); lia.
Qed.

(** Past 2^52 the product is rounded to an integer before [int] truncates
    it, and the fifth can be overshot: the bound of [margin_fifth] belongs
    to the arithmetic. *)
Example margin_past_2_52 :
  margin (5 * 2 ^ 52 + 3) = inr ((5 * 2 ^ 52 + 3) / 5 + 1).
Proof. vm_compute. reflexivity. Qed.

(** [0.2] is the correctly rounded quotient of 1 by 5. *)
Example lit_0_2_is_a_fifth :
  SFdiv prec emax (binary_normalize prec emax 1 0 false)
        (binary_normalize prec emax 5 0 false) = lit_0_2.
Proof. vm_compute. reflexivity. Qed.

End Binary64.

(** ** The paste loops *)

Section ForRange.
Context {A B C : Type} (g : A -> B -> C -> A) (d s : nat).
Implicit Types (out : list A) (a : list B) (b : list C).

Lemma for_range_S n out a b :
  for_range g d s (S n) out a b =
  let r := for_range g d s n out a b in
  match r !! (n + d)%nat, a !! (n + s)%nat, b !! (n + s)%nat with
  | Some o, Some x, Some y => <[(n + d)%nat := g o x y]> r
  | _, _, _ => r
  end.
Proof. unfold for_range. by rewrite seq_S, foldl_app. Qed.

Lemma for_range_length n out a b :
  length (for_range g d s n out a b) = length out.
Proof.
  induction n as [|n IH]; [done|]. rewrite for_range_S. cbv zeta.
  repeat case_match; by rewrite ?length_insert.
Qed.

Lemma for_range_lookup_outside n out a b j :
  ~ (d <= j < d + n)%nat -> for_range g d s n out a b !! j = out !! j.
Proof.
  induction n as [|n IH]; [done|]. intros Hj. rewrite for_range_S. cbv zeta.
  repeat case_match; try (apply IH; lia).
  rewrite list_lookup_insert_ne by lia. apply IH. lia.
Qed.

Lemma for_range_lookup_inside n out a b k o x y :
  (k < n)%nat ->
  out !! (k + d)%nat = Some o -> a !! (k + s)%nat = Some x -> b !! (k + s)%nat = Some y ->
  for_range g d s n out a b !! (k + d)%nat = Some (g o x y).
Proof.
  intros Hk Ho Hx Hy. induction n as [|n IH]; [lia|].
  rewrite for_range_S. cbv zeta. destruct (decide (k = n)) as [-> | Hne].
  - rewrite for_range_lookup_outside by lia. rewrite Ho, Hx, Hy.
    apply list_lookup_insert_eq. rewrite for_range_length.
    by eapply lookup_lt_Some.
  - assert (Hk' : (k < n)%nat) by lia. specialize (IH Hk').
    repeat case_match; try done. by rewrite list_lookup_insert_ne by lia.
Qed.

Lemma for_range_lookup_cases n out a b j :
  for_range g d s n out a b !! j = out !! j \/
  exists k o x y,
    j = (k + d)%nat /\ (k < n)%nat /\ out !! j = Some o /\
    a !! (k + s)%nat = Some x /\ b !! (k + s)%nat = Some y /\
    for_range g d s n out a b !! j = Some (g o x y).
Proof.
  induction n as [|n IH]; [by left|]. rewrite for_range_S. cbv zeta.
  destruct (for_range g d s n out a b !! (n + d)%nat) as [o|] eqn:Eo;
    [|destruct IH as [IH | (k & o & x & y & ? & ? & ? & ? & ? & ?)];
      [by left | right; exists k, o, x, y; repeat split; try done; lia]].
  destruct (a !! (n + s)%nat) as [x|] eqn:Ex;
    [|destruct IH as [IH | (k & o' & x & y & ? & ? & ? & ? & ? & ?)];
      [by left | right; exists k, o', x, y; repeat split; try done; lia]].
  destruct (b !! (n + s)%nat) as [y|] eqn:Ey;
    [|destruct IH as [IH | (k & o' & x' & y & ? & ? & ? & ? & ? & ?)];
      [by left | right; exists k, o', x', y; repeat split; try done; lia]].
  destruct (decide (j = (n + d)%nat)) as [-> | Hne].
  - right. exists n, o, x, y. repeat split; try done; try lia.
    + rewrite <- Eo. symmetry. apply for_range_lookup_outside. lia.
    + apply list_lookup_insert_eq. by eapply lookup_lt_Some.
  - rewrite list_lookup_insert_ne by done.
    destruct IH as [IH | (k & o' & x' & y' & ? & ? & ? & ? & ? & ?)];
      [by left | right; exists k, o', x', y'; repeat split; try done; lia].
Qed.

Lemma for_range_Forall (P : A -> Prop) n out a b :
  Forall P out ->
  (forall o x y, P o -> x ∈ a -> y ∈ b -> P (g o x y)) ->
  Forall P (for_range g d s n out a b).
Proof.
  rewrite !Forall_lookup. intros Hout Hg j r Hr.
  destruct (for_range_lookup_cases n out a b j)
    as [E | (k & o & x & y & _ & _ & Eo & Ex & Ey & E)]; rewrite E in Hr.
  - eauto.
  - injection Hr as <-. apply Hg; [eauto | |]; by eapply list_elem_of_lookup_2.
Qed.

End ForRange.

Section Paste.
Context (op : pixel -> pixel -> pixel -> pixel) (dx dy sx sy xs ys : nat).
Implicit Types (out inp mask : list (list pixel)).

Lemma paste_region_length out inp mask :
  length (paste_region op dx dy sx sy xs ys out inp mask) = length out.
Proof. apply for_range_length. Qed.

Lemma paste_region_row_length out inp mask n :
  Forall (fun row => length row = n) out ->
  Forall (fun row => length row = n) (paste_region op dx dy sx sy xs ys out inp mask).
Proof.
  rewrite !Forall_lookup. intros Hout y row Hrow.
  destruct (for_range_lookup_cases (paste_line op dx sx xs) dy sy ys out inp mask y)
    as [E | (k & orow & irow & mrow & _ & _ & Eo & _ & _ & E)];
    unfold paste_region in Hrow.
  - rewrite E in Hrow. eauto.
  - rewrite E in Hrow. injection Hrow as <-. unfold paste_line.
    rewrite for_range_length. eauto.
Qed.

Lemma paste_region_pixel_inside out inp mask x y orow o irow i mrow m :
  (x < xs)%nat -> (y < ys)%nat ->
  out !! (y + dy)%nat = Some orow -> orow !! (x + dx)%nat = Some o ->
  inp !! (y + sy)%nat = Some irow -> irow !! (x + sx)%nat = Some i ->
  mask !! (y + sy)%nat = Some mrow -> mrow !! (x + sx)%nat = Some m ->
  paste_region op dx dy sx sy xs ys out inp mask !! (y + dy)%nat
    ≫= (fun row => row !! (x + dx)%nat) = Some (op m o i).
Proof.
  intros Hx Hy Horow Ho Hirow Hi Hmrow Hm. unfold paste_region.
  rewrite (for_range_lookup_inside _ _ _ _ _ _ _ y orow irow mrow) by done.
  cbn. unfold paste_line.
  by rewrite (for_range_lookup_inside _ _ _ _ _ _ _ x o i m).
Qed.

Lemma paste_region_pixel_outside out inp mask x y :
  ~ ((dx <= x < dx + xs)%nat /\ (dy <= y < dy + ys)%nat) ->
  paste_region op dx dy sx sy xs ys out inp mask !! y ≫= (fun row => row !! x)
  = out !! y ≫= (fun row => row !! x).
Proof.
  intros Hxy. unfold paste_region.
  destruct (decide (dy <= y < dy + ys)%nat) as [Hy | Hy].
  - destruct (for_range_lookup_cases (paste_line op dx sx xs) dy sy ys out inp mask y)
      as [-> | (k & orow & irow & mrow & _ & _ & -> & _ & _ & ->)]; [done|].
    cbn. unfold paste_line. apply for_range_lookup_outside. lia.
  - by rewrite for_range_lookup_outside.
Qed.

Lemma paste_region_pixel_ok out inp mask :
  (forall m o i, pixel_ok o -> pixel_ok i -> pixel_ok (op m o i)) ->
  Forall (Forall pixel_ok) out -> Forall (Forall pixel_ok) inp ->
  Forall (Forall pixel_ok) (paste_region op dx dy sx sy xs ys out inp mask).
Proof.
  intros Hop Hout Hinp. unfold paste_region.
  apply for_range_Forall; [done|]. intros orow irow mrow Ho Hi _.
  unfold paste_line. apply for_range_Forall; [done|]. intros o i m Hok Hin _.
  apply Hop; [done|]. rewrite Forall_forall in Hinp.
  specialize (Hinp _ Hi). rewrite Forall_forall in Hinp. auto.
Qed.

End Paste.

(** ** Blending onto the transparent canvas *)

Lemma DIV255_mul_255 (c : Z) : 0 <= c <= 255 -> DIV255 (c * 255) = c.
Proof.
  intros Hc. unfold DIV255, SHIFTFORDIV255. rewrite !Z.shiftr_div_pow2 by lia.
  change (2 ^ 8) with 256. Z.div_mod_to_equations. lia.
Qed.

Lemma BLEND_opaque (o c : Z) : 0 <= c <= 255 -> BLEND 255 o c = c.
Proof.
  intros Hc. unfold BLEND, UINT8.
  replace (o * (255 - 255) + c * 255) with (c * 255) by lia.
  rewrite DIV255_mul_255 by done. apply Z.mod_small. lia.
Qed.

Lemma BLEND_clear (o c : Z) : 0 <= o <= 255 -> BLEND 0 o c = o.
Proof.
  intros Ho. unfold BLEND, UINT8.
  replace (o * (255 - 0) + c * 0) with (o * 255) by lia.
  rewrite DIV255_mul_255 by done. apply Z.mod_small. lia.
Qed.

Lemma paste_mask_RGBA_opaque (o p : pixel) :
  pixel_ok p -> band3 p = 255 -> paste_mask_RGBA p o p = p.
Proof.
  intros (H0 & H1 & H2 & H3) Ha. unfold paste_mask_RGBA, blend_pixel.
  rewrite Ha, !BLEND_opaque by done. destruct p; cbn in *. by subst.
Qed.

Lemma paste_mask_RGBA_clear (o p : pixel) :
  pixel_ok o -> band3 p = 0 -> paste_mask_RGBA p o p = o.
Proof.
  intros (H0 & H1 & H2 & H3) Ha. unfold paste_mask_RGBA, blend_pixel.
  rewrite Ha, !BLEND_clear by done. by destruct o.
Qed.

Lemma UINT8_range (a : Z) : byte_range (UINT8 a).
Proof.
  unfold byte_range, UINT8. pose proof (Z.mod_pos_bound a 256). lia.
Qed.

Lemma blend_pixel_ok (a : Z) (o i : pixel) : pixel_ok (blend_pixel a o i).
Proof.
  unfold blend_pixel, pixel_ok, BLEND. cbn.
  split; [|split; [|split]]; apply UINT8_range.
Qed.

Lemma paste_op_pixel_ok (mm : mode) (op : pixel -> pixel -> pixel -> pixel)
    (m o i : pixel) :
  paste_op mm = Some op -> pixel_ok o -> pixel_ok i -> pixel_ok (op m o i).
Proof.
  intros Hop Ho Hi.
  destruct mm; cbn in Hop; try discriminate; injection Hop as <-.
  - unfold paste_mask_1. by case_match.
  - apply blend_pixel_ok.
  - apply blend_pixel_ok.
  - apply blend_pixel_ok.
Qed.

Lemma convert_pixel_RGBA_ok (m : mode) (p : pixel) :
  pixel_ok p -> pixel_ok (convert_pixel_RGBA m p).
Proof.
  intros (H0 & H1 & H2 & H3).
  destruct m; cbn; unfold pixel_ok, byte_range in *; cbn;
    try case_match; repeat split; lia.
Qed.

(** ** One run of [add_margin] *)

Lemma wf_image_getpixel (im : image) (x y : nat) :
  wf_image im -> (x < Z.to_nat (xsize im))%nat -> (y < Z.to_nat (ysize im))%nat ->
  exists row p, im_data im !! y = Some row /\ row !! x = Some p /\ pixel_ok p.
Proof.
  intros (_ & _ & _ & Hlen & Hrows) Hx Hy.
  destruct (lookup_lt_is_Some_2 (im_data im) y) as [row Hrow]; [lia|].
  rewrite Forall_lookup in Hrows. destruct (Hrows _ _ Hrow) as [Hl Hok].
  destruct (lookup_lt_is_Some_2 row x) as [p Hp]; [lia|].
  exists row, p. split; [done|]. split; [done|].
  rewrite Forall_lookup in Hok. eauto.
Qed.

Lemma decompression_bomb_check_ok (size : Z * Z) :
  1 <= fst size -> 1 <= snd size -> fst size * snd size <= 2 * MAX_IMAGE_PIXELS ->
  decompression_bomb_check size = inr tt.
Proof.
  intros Hx Hy Hpix. unfold decompression_bomb_check.
  rewrite !Z.max_r by lia. cbv zeta.
  destruct (Z.ltb_spec (2 * MAX_IMAGE_PIXELS) (fst size * snd size)); [lia | done].
Qed.

Lemma check_header_ok (path : string) (size : Z * Z) :
  1 <= fst size -> 1 <= snd size -> fst size * snd size <= 2 * MAX_IMAGE_PIXELS ->
  check_header path size = inr tt.
Proof.
  intros Hx Hy Hpix. unfold check_header.
  destruct (Z.leb_spec (fst size) 0); [lia|].
  destruct (Z.leb_spec (snd size) 0); [lia|].
  by apply decompression_bomb_check_ok.
Qed.

(** Within the pixel limit each dimension is within [int]. *)
Lemma pixel_limit_sides (w h : Z) :
  1 <= w -> 1 <= h -> w * h <= 2 * MAX_IMAGE_PIXELS -> w <= INT_MAX /\ h <= INT_MAX.
Proof.
  intros Hw Hh Hpix. unfold MAX_IMAGE_PIXELS, INT_MAX in *.
  assert (w * 1 <= w * h) by (apply Z.mul_le_mono_nonneg_l; lia).
  assert (1 * h <= w * h) by (apply Z.mul_le_mono_nonneg_r; lia).
  lia.
Qed.

Lemma Image_paste_centered (im : image) (mw mh : Z) :
  wf_image im -> 0 <= mw -> 0 <= mh ->
  let img := Opened (im_mode im) (im_size im) (inr (im_data im)) in
  let size := (xsize im + 2 * mw, ysize im + 2 * mh) in
  Image_paste (ImagingFill Mode_RGBA size (Pixel 0 0 0 0)) img (mw, mh) img
  = match paste_op (im_mode im) with
    | Some op =>
        inr (Image Mode_RGBA size
               (paste_region op (Z.to_nat mw) (Z.to_nat mh) 0 0
                  (Z.to_nat (xsize im)) (Z.to_nat (ysize im))
                  (im_data (ImagingFill Mode_RGBA size (Pixel 0 0 0 0)))
                  (map (map (convert_pixel_RGBA (im_mode im))) (im_data im))
                  (im_data im)))
    | None => inl (ValueError "bad transparency mask")
    end.
Proof.
  intros (Hx & Hy & _) Hmw Hmh img size.
  destruct im as [m [w h] data]. unfold xsize, ysize in *. cbn in *.
  unfold Image_paste, load. cbn.
  assert (Hin : im_data (if decide (Mode_RGBA = m) then Image m (w, h) data
                         else convert_RGBA (Image m (w, h) data))
                = map (map (convert_pixel_RGBA m)) data
                /\ im_size (if decide (Mode_RGBA = m) then Image m (w, h) data
                         else convert_RGBA (Image m (w, h) data)) = (w, h)
                /\ im_mode (if decide (Mode_RGBA = m) then Image m (w, h) data
                         else convert_RGBA (Image m (w, h) data)) = Mode_RGBA).
  { case_decide as Hm; [subst m|]; cbn; [|done]. repeat split.
    symmetry. erewrite map_ext; [apply map_id|]. intros row. apply map_id. }
  destruct Hin as (Hd & Hs & Hmo).
  unfold ImagingPaste. unfold xsize, ysize. rewrite Hs, Hmo, Hd. cbn.
  replace (mw + w - mw) with w by lia. replace (mh + h - mh) with h by lia.
  rewrite !Z.eqb_refl. cbn. unfold clip.
  destruct (Z.ltb_spec mw 0); [lia|]. destruct (Z.ltb_spec mh 0); [lia|].
  destruct (Z.ltb_spec (w + 2 * mw) (mw + w)); [lia|].
  destruct (Z.ltb_spec (h + 2 * mh) (mh + h)); [lia|].
  destruct (Z.leb_spec w 0); [lia|]. destruct (Z.leb_spec h 0); [lia|].
  reflexivity.
Qed.

(** The run up to the paste, for a decodable source and a successful
    allocation: what is left is the outcome of the paste and the save. *)
Lemma add_margin_body_decoded (wd : world) (im : image) :
  fs wd !! input_path = Some (ImageFile im) ->
  wf_image im ->
  let mw := xsize im / 5 in
  let mh := ysize im / 5 in
  let nw := xsize im + 2 * mw in
  let nh := ysize im + 2 * mh in
  alloc_fault wd (nw, nh) = None ->
  add_margin_body wd
  = (new_img <- lift (Image_paste (ImagingFill Mode_RGBA (nw, nh) (Pixel 0 0 0 0))
                        (Opened (im_mode im) (im_size im) (inr (im_data im)))
                        (mw, mh)
                        (Opened (im_mode im) (im_size im) (inr (im_data im)))) ;;
     Image_save new_img output_path ;;;
     print (created_message nw nh)) wd.
Proof.
  intros Hfs (Hx & Hy & Hpix & _) mw mh nw nh Halloc.
  assert (Hmw : 0 <= mw) by (apply Z.div_pos; lia).
  assert (Hmh : 0 <= mh) by (apply Z.div_pos; lia).
  unfold add_margin_body, Image_open. unfold bind at 1. rewrite Hfs.
  cbn [open_file].
  rewrite check_header_ok by (unfold xsize, ysize in *; lia).
  cbn [o_size].
  replace (im_size im) with (xsize im, ysize im) by (by destruct im as [? [] ?]).
  unfold bind at 1. rewrite margin_fifth by (unfold INT_MAX in *; lia). cbn [lift ret].
  unfold bind at 1. rewrite margin_fifth by (unfold INT_MAX in *; lia). cbn [lift ret].
  unfold bind at 1, Image_new. cbn [fst snd]. fold mw mh nw nh.
  destruct (Z.ltb_spec nw 0); [lia|]. destruct (Z.ltb_spec nh 0); [lia|].
  cbn [orb]. by rewrite Halloc.
Qed.

Lemma add_margin_ok (wd : world) (im : image)
    (op : pixel -> pixel -> pixel -> pixel) :
  fs wd !! input_path = Some (ImageFile im) ->
  wf_image im ->
  paste_op (im_mode im) = Some op ->
  let mw := xsize im / 5 in
  let mh := ysize im / 5 in
  let nw := xsize im + 2 * mw in
  let nh := ysize im + 2 * mh in
  alloc_fault wd (nw, nh) = None ->
  write_fault wd output_path = None ->
  exists out,
    add_margin wd
    = (World (<[output_path := ImageFile out]> (fs wd)) (alloc_fault wd)
             (write_fault wd) (stdout wd ++ [created_message nw nh]), inr tt) /\
    im_mode out = Mode_RGBA /\ im_size out = (nw, nh) /\
    length (im_data out) = Z.to_nat nh /\
    Forall (fun row => length row = Z.to_nat nw) (im_data out) /\
    (nw * nh <= 2 * MAX_IMAGE_PIXELS -> wf_image out) /\
    (forall x y : nat,
       Z.of_nat x < nw -> Z.of_nat y < nh ->
       ~ (mw <= Z.of_nat x < mw + xsize im /\ mh <= Z.of_nat y < mh + ysize im) ->
       getpixel out x y = Some (Pixel 0 0 0 0)) /\
    (forall (x y : nat) (p : pixel),
       getpixel im x y = Some p ->
       getpixel out (x + Z.to_nat mw) (y + Z.to_nat mh)
       = Some (op p (Pixel 0 0 0 0) (convert_pixel_RGBA (im_mode im) p))).
Proof.
  intros Hfs Hwf Hop mw mh nw nh Halloc Hwrite.
  pose proof Hwf as (Hx & Hy & Hpix & Hlen & Hrows).
  assert (Hmw : 0 <= mw) by (apply Z.div_pos; lia).
  assert (Hmh : 0 <= mh) by (apply Z.div_pos; lia).
  pose proof (Image_paste_centered im mw mh Hwf Hmw Hmh) as Hpaste.
  cbv zeta in Hpaste. fold nw nh in Hpaste. rewrite Hop in Hpaste.
  eexists. split.
  { unfold add_margin, try_except_Exception.
    rewrite (add_margin_body_decoded wd im Hfs Hwf Halloc). fold mw mh nw nh.
    unfold bind. rewrite Hpaste. cbn [lift ret].
    unfold Image_save. rewrite Hwrite. cbn. reflexivity. }
  cbn [im_mode im_size im_data]. split; [done|]. split; [done|].
  assert (Hshape : length (im_data (ImagingFill Mode_RGBA (nw, nh) (Pixel 0 0 0 0)))
                   = Z.to_nat nh) by (cbn; apply length_replicate).
  split; [by rewrite paste_region_length|].
  split.
  { apply paste_region_row_length, Forall_replicate, length_replicate. }
  split.
  { intros Hpix'.
    destruct (pixel_limit_sides nw nh) as [Hnw Hnh]; [lia | lia | done |].
    unfold wf_image, xsize, ysize. cbn [im_size im_data fst snd].
    split; [lia|]. split; [lia|]. split; [done|].
    split; [by rewrite paste_region_length|].
    apply Forall_and. split.
    - apply paste_region_row_length, Forall_replicate, length_replicate.
    - apply paste_region_pixel_ok.
      + intros m o i. by apply paste_op_pixel_ok with (mm := im_mode im).
      + apply Forall_replicate, Forall_replicate. unfold pixel_ok, byte_range. cbn. lia.
      + apply Forall_fmap. eapply Forall_impl; [exact Hrows|].
        intros row [_ Hok]. cbn. apply Forall_fmap.
        eapply Forall_impl; [exact Hok|]. intros p. apply convert_pixel_RGBA_ok. }
  split.
  - intros x y Hxn Hyn Hout. unfold getpixel. cbn [im_data].
    rewrite paste_region_pixel_outside by lia.
    rewrite lookup_replicate_2 by lia. cbn. apply lookup_replicate_2. lia.
  - intros x y p Hp. unfold getpixel in Hp.
    destruct (im_data im !! y) as [row|] eqn:Hrow; [|done]. cbn in Hp.
    rewrite Forall_lookup in Hrows. destruct (Hrows _ _ Hrow) as [Hl _].
    apply lookup_lt_Some in Hrow as Hylt. apply lookup_lt_Some in Hp as Hxlt.
    unfold getpixel. cbn [im_data].
    apply (paste_region_pixel_inside _ _ _ _ _ _ _ _ _ _ x y
             (replicate (Z.to_nat nw) (Pixel 0 0 0 0)) _
             (map (convert_pixel_RGBA (im_mode im)) row) _ row).
    all: rewrite ?Nat.add_0_r; try lia; try done.
    + apply lookup_replicate_2. lia.
    + apply lookup_replicate_2. lia.
    + by rewrite list_lookup_fmap, Hrow.
    + by rewrite list_lookup_fmap, Hp.
Qed.

Lemma paste_op_accepts (m : mode) :
  m <> Mode_RGB -> exists op, paste_op m = Some op.
Proof. destruct m; cbn; eauto. done. Qed.

Lemma getpixel_pixel_ok (im : image) (x y : nat) (p : pixel) :
  wf_image im -> getpixel im x y = Some p -> pixel_ok p.
Proof.
  intros (_ & _ & _ & _ & Hrows) Hp. unfold getpixel in Hp.
  destruct (im_data im !! y) as [row|] eqn:Hrow; [|done]. cbn in Hp.
  rewrite Forall_lookup in Hrows. destruct (Hrows _ _ Hrow) as [_ Hok].
  rewrite Forall_lookup in Hok. eauto.
Qed.

(** On the products of two bytes [DIV255] is the division by 255 rounded
    to nearest. *)
Lemma DIV255_rounds (x : Z) : 0 <= x <= 65025 -> DIV255 x = (x + 127) / 255.
Proof.
  intros Hx. unfold DIV255, SHIFTFORDIV255.
  rewrite !Z.shiftr_div_pow2 by lia. change (2 ^ 8) with 256.
  Z.div_mod_to_equations. lia.
Qed.

Lemma BLEND_on_transparent (a c : Z) :
  0 <= a <= 255 -> 0 <= c <= 255 -> BLEND a 0 c = (c * a + 127) / 255.
Proof.
  intros Ha Hc. unfold BLEND, UINT8.
  replace (0 * (255 - a) + c * a) with (c * a) by lia.
  assert (Hx : 0 <= c * a <= 65025) by nia.
  rewrite DIV255_rounds by done. apply Z.mod_small.
  Z.div_mod_to_equations. lia.
Qed.

(** ** What the paste leaves in the block *)

(** The source is the mask of its own paste, and the canvas under it is
    transparent black: per source pixel, what the three paste functions
    store. *)
Lemma premultiplied_block (p : pixel) :
  pixel_ok p ->
  paste_mask_RGBA p (Pixel 0 0 0 0) (convert_pixel_RGBA Mode_RGBA p)
  = Pixel ((band0 p * band3 p + 127) / 255) ((band1 p * band3 p + 127) / 255)
          ((band2 p * band3 p + 127) / 255) ((band3 p * band3 p + 127) / 255).
Proof.
  intros (H0 & H1 & H2 & H3). cbn [convert_pixel_RGBA].
  unfold paste_mask_RGBA, blend_pixel. cbn [band0 band1 band2 band3].
  by rewrite !BLEND_on_transparent.
Qed.

Lemma greyscale_block (p : pixel) :
  pixel_ok p ->
  paste_mask_L p (Pixel 0 0 0 0) (convert_pixel_RGBA Mode_L p)
  = Pixel ((band0 p * band0 p + 127) / 255) ((band0 p * band0 p + 127) / 255)
          ((band0 p * band0 p + 127) / 255) (band0 p).
Proof.
  intros (H0 & _). cbn [convert_pixel_RGBA].
  unfold paste_mask_L, blend_pixel. cbn [band0 band1 band2 band3].
  rewrite !BLEND_on_transparent by (done || lia).
  do 2 f_equal. unfold byte_range in H0. Z.div_mod_to_equations. lia.
Qed.

Lemma bilevel_block (p : pixel) :
  paste_mask_1 p (Pixel 0 0 0 0) (convert_pixel_RGBA Mode_1 p)
  = if band0 p =? 0 then Pixel 0 0 0 0 else Pixel 255 255 255 255.
Proof. cbn [convert_pixel_RGBA]. unfold paste_mask_1. by destruct (band0 p =? 0). Qed.

(** The successful run, with the world it leaves written as [saved]. *)
Lemma add_margin_saves (wd : world) (im : image)
    (op : pixel -> pixel -> pixel -> pixel) :
  fs wd !! input_path = Some (ImageFile im) ->
  wf_image im ->
  paste_op (im_mode im) = Some op ->
  alloc_fault wd (xsize im + 2 * (xsize im / 5), ysize im + 2 * (ysize im / 5)) = None ->
  write_fault wd output_path = None ->
  exists out,
    add_margin wd = (saved wd out, inr tt) /\
    im_mode out = Mode_RGBA /\
    xsize out = xsize im + 2 * (xsize im / 5) /\
    ysize out = ysize im + 2 * (ysize im / 5) /\
    length (im_data out) = Z.to_nat (ysize out) /\
    Forall (fun row => length row = Z.to_nat (xsize out)) (im_data out) /\
    (xsize out * ysize out <= 2 * MAX_IMAGE_PIXELS -> wf_image out) /\
    (forall x y : nat,
       Z.of_nat x < xsize out -> Z.of_nat y < ysize out ->
       ~ (xsize im / 5 <= Z.of_nat x < xsize im / 5 + xsize im /\
          ysize im / 5 <= Z.of_nat y < ysize im / 5 + ysize im) ->
       getpixel out x y = Some (Pixel 0 0 0 0)) /\
    (forall (x y : nat) (p : pixel),
       getpixel im x y = Some p ->
       getpixel out (x + Z.to_nat (xsize im / 5)) (y + Z.to_nat (ysize im / 5))
       = Some (op p (Pixel 0 0 0 0) (convert_pixel_RGBA (im_mode im) p))).
Proof.
  intros Hfs Hwf Hop Halloc Hwrite.
  destruct (add_margin_ok wd im op Hfs Hwf Hop Halloc Hwrite)
    as (out & Hrun & Hmode & Hsize & Hlen & Hrows & Hwf' & Hout & Hin).
  assert (Hxs : xsize out = xsize im + 2 * (xsize im / 5))
    by (unfold xsize at 1; by rewrite Hsize).
  assert (Hys : ysize out = ysize im + 2 * (ysize im / 5))
    by (unfold ysize at 1; by rewrite Hsize).
  exists out. split.
  { unfold saved. rewrite Hxs, Hys. exact Hrun. }
  split; [done|]. split; [done|]. split; [done|].
  split; [by rewrite Hys|]. split; [by rewrite Hxs|].
  split; [by rewrite Hxs, Hys|]. split; [|done].
  intros x y Hx Hy Hrect. apply Hout; [lia | lia | done].
Qed.

(** * The claims *)



(** The line of that run, letter by letter. *)
Example red_square_line :
  stdout (fst (add_margin
                 (quiet_world {[ input_path := ImageFile (solid Mode_RGBA 10 10 red) ]})))
  = ["Created new image with dimensions 14x14"].
Proof. vm_compute. reflexivity. Qed.

(** C2. For every valid input image, every pixel of the saved image outside
    the rectangle [margin_w, margin_w + W) x [margin_h, margin_h + H) is
    transparent black, (0, 0, 0, 0). *)
Theorem margin_is_transparent (wd : world) (im : image) :
  fs wd !! input_path = Some (ImageFile im) ->
  wf_image im ->
  im_mode im <> Mode_RGB ->
  alloc_fault wd (xsize im + 2 * (xsize im / 5), ysize im + 2 * (ysize im / 5)) = None ->
  write_fault wd output_path = None ->
  exists out,
    add_margin wd = (saved wd out, inr tt) /\
    forall x y : nat,
      Z.of_nat x < xsize out -> Z.of_nat y < ysize out ->
      ~ (xsize im / 5 <= Z.of_nat x < xsize im / 5 + xsize im /\
         ysize im / 5 <= Z.of_nat y < ysize im / 5 + ysize im) ->
      getpixel out x y = Some (Pixel 0 0 0 0).
Proof.
  intros Hfs Hwf Hmode Halloc Hwrite.
  destruct (paste_op_accepts _ Hmode) as [op Hop].
  destruct (add_margin_saves wd im op Hfs Hwf Hop Halloc Hwrite)
    as (out & Hrun & _ & _ & _ & _ & _ & _ & Hout & _).
  exists out. split; [exact Hrun | exact Hout].
Qed.

Lemma margin_is_transparent_witness :
  exists out,
    add_margin (quiet_world {[ input_path := ImageFile (solid Mode_RGBA 10 10 red) ]})
    = (saved (quiet_world {[ input_path := ImageFile (solid Mode_RGBA 10 10 red) ]}) out,
       inr tt) /\
    forall x y : nat,
      Z.of_nat x < xsize out -> Z.of_nat y < ysize out ->
      ~ (2 <= Z.of_nat x < 2 + 10 /\ 2 <= Z.of_nat y < 2 + 10) ->
      getpixel out x y = Some (Pixel 0 0 0 0).
Proof.
  refine (margin_is_transparent
            (quiet_world {[ input_path := ImageFile (solid Mode_RGBA 10 10 red) ]})
            (solid Mode_RGBA 10 10 red) _ _ _ _ _).
  - reflexivity.
  - apply (bool_decide_unpack _). vm_compute. reflexivity.
  - discriminate.
  - reflexivity.
  - reflexivity.
Defined.

(** C3. The claim is not met by the code. The block of the saved image at
    the margin offset is not pixel-identical to the source composited onto
    the transparent canvas. For [strip_5] the block is the five pixels
    after the first column; the opaque pixels are there unchanged and the
    fully transparent one is transparent, as the claim says, but the
    half-transparent pixel (255, 0, 0, 128), which a composite onto a
    transparent canvas leaves as it is, is there as (128, 0, 0, 64). Line
    24 pastes the source through itself as mask, which blends every band,
    alpha included, with the canvas. *)
Lemma block_not_pixel_identical :
  exists out,
    add_margin (quiet_world {[ input_path := ImageFile strip_5 ]})
    = (saved (quiet_world {[ input_path := ImageFile strip_5 ]}) out, inr tt) /\
    im_data strip_5 = [[Pixel 255 0 0 128; red; Pixel 9 9 9 0; red; red]] /\
    (take 5 ∘ drop 1) <$> im_data out
    = [[Pixel 128 0 0 64; red; Pixel 0 0 0 0; red; red]] /\
    getpixel out (0 + 1) 0 <> getpixel strip_5 0 0.
Proof.
  exists (Image Mode_RGBA (7, 1)
            [[Pixel 0 0 0 0; Pixel 128 0 0 64; red; Pixel 0 0 0 0; red; red;
              Pixel 0 0 0 0]]).
  split; [vm_compute; reflexivity|]. repeat split. discriminate.
Qed.

(** C4. The claim is not met by the code. The half-transparent first pixel
    of [strip_5] is found at its relative position in the saved image, one
    column to the right, with alpha 64 instead of 128 and its red band
    halved: the paste of line 24 blends the alpha band with the transparent
    canvas as it does the colours. *)
Lemma partial_alpha_not_preserved :
  add_margin (quiet_world {[ input_path := ImageFile strip_5 ]})
  = (saved (quiet_world {[ input_path := ImageFile strip_5 ]})
           (Image Mode_RGBA (7, 1)
                  [[Pixel 0 0 0 0; Pixel 128 0 0 64; red; Pixel 0 0 0 0; red; red;
                    Pixel 0 0 0 0]]), inr tt) /\
  getpixel strip_5 0 0 = Some (Pixel 255 0 0 128) /\
  getpixel (Image Mode_RGBA (7, 1)
                  [[Pixel 0 0 0 0; Pixel 128 0 0 64; red; Pixel 0 0 0 0; red; red;
                    Pixel 0 0 0 0]]) (0 + 1) 0 = Some (Pixel 128 0 0 64) /\
  band3 (Pixel 128 0 0 64) <> 128.
Proof. split; [vm_compute; reflexivity|]. repeat split. discriminate. Qed.

(** Fed back as input, a half-transparent pixel fades away: after four runs
    the 1x1 image (255, 0, 0, 128) is transparent black. *)
Example half_transparent_pixel_fades :
  output_image
    (runs 3 (quiet_world
               {[ input_path := ImageFile (solid Mode_RGBA 1 1 (Pixel 255 0 0 128)) ]}))
  = Some (Image Mode_RGBA (1, 1) [[Pixel 0 0 0 0]]).
Proof. vm_compute. reflexivity. Qed.

(** C5. The margin is the truncation of 0.2 W, not its rounding: for every
    width W (here up to 2^51, far beyond the widths of C [int]),
    [int(W * 0.2)] is floor(0.2 W), the integer quotient W / 5. In
    particular a 7x7 input gets margin 1 and a 9x9 output, and a 10x10
    input gets margin 2 and a 14x14 output. *)
Theorem margin_truncates (W : Z) :
  0 <= W < 2 ^ 51 ->
  margin W = inr (W / 5) /\
  margin 7 = inr 1 /\
  im_size <$> output_image
    (fst (add_margin (quiet_world {[ input_path := ImageFile (solid Mode_RGBA 7 7 red) ]})))
  = Some (9, 9) /\
  margin 10 = inr 2 /\
  im_size <$> output_image
    (fst (add_margin (quiet_world {[ input_path := ImageFile (solid Mode_RGBA 10 10 red) ]})))
  = Some (14, 14).
Proof.
  intros HW. split; [by apply margin_fifth|].
  repeat split; vm_compute; reflexivity.
Qed.

(** 0.2 * 9 = 1.8 is truncated to 1, where rounding would give 2. *)
Lemma margin_truncates_witness :
  margin 9 = inr 1 /\
  margin 7 = inr 1 /\
  im_size <$> output_image
    (fst (add_margin (quiet_world {[ input_path := ImageFile (solid Mode_RGBA 7 7 red) ]})))
  = Some (9, 9) /\
  margin 10 = inr 2 /\
  im_size <$> output_image
    (fst (add_margin (quiet_world {[ input_path := ImageFile (solid Mode_RGBA 10 10 red) ]})))
  = Some (14, 14).
Proof. refine (margin_truncates 9 _). lia. Defined.





(** A greyscale source has no alpha either; its mode is accepted as a
    mask, so its luminance is what the paste blends with: a grey of 100
    comes out as (39, 39, 39, 100), not opaque. *)
Example greyscale_source_masked_by_luminance :
  output_image
    (fst (add_margin
            (quiet_world {[ input_path := ImageFile (solid Mode_L 1 1 (Pixel 100 0 0 0)) ]})))
  = Some (Image Mode_RGBA (1, 1) [[Pixel 39 39 39 100]]).
Proof. vm_compute. reflexivity. Qed.

(** A bilevel source: the set pixel is saved opaque white, the clear one
    leaves the canvas transparent. *)
Example bilevel_source_stencilled :
  output_image
    (fst (add_margin
            (quiet_world
               {[ input_path :=
                    ImageFile (Image Mode_1 (2, 1) [[Pixel 255 0 0 0; Pixel 0 0 0 0]]) ]})))
  = Some (Image Mode_RGBA (2, 1) [[Pixel 255 255 255 255; Pixel 0 0 0 0]]).
Proof. vm_compute. reflexivity. Qed.

(** What a failing body leaves behind: it has printed nothing, and the
    environment's faults are those of the start. *)
Lemma add_margin_body_frame (wd w1 : world) (r : exn + unit) :
  add_margin_body wd = (w1, r) ->
  alloc_fault w1 = alloc_fault wd /\ write_fault w1 = write_fault wd /\
  (forall e, r = inl e -> stdout w1 = stdout wd).
Proof.
  unfold add_margin_body, bind, Image_open, Image_new, Image_save, print, lift,
    ret, raise, set_fs.
  destruct (fs wd !! input_path) as [f|]; [|by intros [= <- <-]].
  destruct (open_file input_path f) as [e|img]; [by intros [= <- <-]|].
  destruct (o_size img) as [width height].
  destruct (margin width) as [e|mw]; [by intros [= <- <-]|].
  destruct (margin height) as [e|mh]; [by intros [= <- <-]|].
  cbn [fst snd].
  destruct ((width + 2 * mw <? 0) || (height + 2 * mh <? 0));
    [by intros [= <- <-]|].
  destruct (alloc_fault wd _) as [e|]; [by intros [= <- <-]|].
  destruct (Image_paste _ img (mw, mh) img) as [e|new_img]; [by intros [= <- <-]|].
  destruct (write_fault wd output_path) as [[e [partial|]]|];
    intros [= <- <-]; cbn; done.
Qed.

(** C7. Every failure of the body of [add_margin], whether raised while
    decoding, allocating, pasting or saving, is caught: [add_margin]
    returns normally in every world, and when its body raised [e] it has
    printed the one line "Error processing image: " followed by [str e],
    the same way for every exception, on top of what the failed body left
    behind, without running anything again. *)
Theorem add_margin_catches (wd : world) :
  snd (add_margin wd) = inr tt /\
  forall (w1 : world) (e : exn),
    add_margin_body wd = (w1, inl e) ->
    add_margin wd
    = (World (fs w1) (alloc_fault wd) (write_fault wd)
             (stdout wd ++ ["Error processing image: " +:+ str e]), inr tt).
Proof.
  assert (Hcatch : forall w1 e, add_margin_body wd = (w1, inl e) ->
            add_margin wd
            = (World (fs w1) (alloc_fault wd) (write_fault wd)
                     (stdout wd ++ ["Error processing image: " +:+ str e]), inr tt)).
  { intros w1 e Hbody.
    destruct (add_margin_body_frame _ _ _ Hbody) as (Ha & Hw & Hs).
    unfold add_margin, try_except_Exception. rewrite Hbody.
    assert (His : is_Exception e = true) by (by destruct e). rewrite His.
    unfold print, error_message. by rewrite Ha, Hw, (Hs e eq_refl). }
  split; [|exact Hcatch].
  destruct (add_margin_body wd) as [w1 [e|[]]] eqn:Hbody.
  - by rewrite (Hcatch w1 e).
  - unfold add_margin, try_except_Exception. by rewrite Hbody.
Qed.

(** A failed allocation, a truncated source and a failed write, each caught
    and printed by the same handler. *)
Example allocation_failure_caught :
  add_margin (World {[ input_path := ImageFile (solid Mode_RGBA 10 10 red) ]}
                    (fun _ => Some MemoryError) (fun _ => None) [])
  = (World {[ input_path := ImageFile (solid Mode_RGBA 10 10 red) ]}
           (fun _ => Some MemoryError) (fun _ => None)
           ["Error processing image: "], inr tt).
Proof. vm_compute. reflexivity. Qed.

Example truncated_source_caught :
  add_margin (quiet_world
                {[ input_path := TruncatedImageFile Mode_RGBA (10, 10)
                                   "image file is truncated" ]})
  = (World {[ input_path := TruncatedImageFile Mode_RGBA (10, 10)
                              "image file is truncated" ]}
           (fun _ => None) (fun _ => None)
           ["Error processing image: image file is truncated"], inr tt).
Proof. vm_compute. reflexivity. Qed.

Example write_failure_caught :
  add_margin (World {[ input_path := ImageFile (solid Mode_RGBA 10 10 red) ]}
                    (fun _ => None)
                    (fun path => Some (PermissionError path, None)) [])
  = (World {[ input_path := ImageFile (solid Mode_RGBA 10 10 red) ]}
           (fun _ => None)
           (fun path => Some (PermissionError path, None))
           ["Error processing image: [Errno 13] Permission denied: 'Logo_Rounded_with_margin.png'"],
     inr tt).
Proof. vm_compute. reflexivity. Qed.

Lemma add_margin_catches_witness :
  snd (add_margin (quiet_world ∅)) = inr tt /\
  add_margin (quiet_world ∅)
  = (World ∅ (fun _ => None) (fun _ => None)
           ["Error processing image: " +:+ str (FileNotFoundError input_path)], inr tt).
Proof.
  destruct (add_margin_catches (quiet_world ∅)) as [Hret Hcatch].
  split; [exact Hret|].
  exact (Hcatch (quiet_world ∅) (FileNotFoundError input_path) eq_refl).
Defined.

(** C8. When the input file does not exist, [add_margin] prints a failure
    that names the missing file and returns; no file is written: the files,
    the output path among them, are exactly as before the call. *)
Theorem missing_input_reported (wd : world) :
  fs wd !! input_path = None ->
  add_margin wd
  = (World (fs wd) (alloc_fault wd) (write_fault wd)
           (stdout wd ++
            ["Error processing image: [Errno 2] No such file or directory: 'Logo_Rounded.png'"]),
     inr tt) /\
  fs (fst (add_margin wd)) !! output_path = fs wd !! output_path.
Proof.
  intros Hfs.
  assert (Hrun : add_margin wd
    = (World (fs wd) (alloc_fault wd) (write_fault wd)
             (stdout wd ++
              ["Error processing image: [Errno 2] No such file or directory: 'Logo_Rounded.png'"]),
       inr tt)).
  { unfold add_margin, try_except_Exception, add_margin_body, bind, Image_open.
    by rewrite Hfs. }
  split; [exact Hrun|]. by rewrite Hrun.
Qed.

Lemma missing_input_reported_witness :
  add_margin (quiet_world {[ output_path := OtherFile ]})
  = (World {[ output_path := OtherFile ]} (fun _ => None) (fun _ => None)
           ["Error processing image: [Errno 2] No such file or directory: 'Logo_Rounded.png'"],
     inr tt) /\
  fs (fst (add_margin (quiet_world {[ output_path := OtherFile ]}))) !! output_path
  = Some OtherFile.
Proof.
  refine (missing_input_reported (quiet_world {[ output_path := OtherFile ]}) _).
  reflexivity.
Defined.


(** ** Repeated runs *)

(** One successful run, as a step from world to world. *)
Lemma run_step (w : world) (im : image) :
  fs w !! input_path = Some (ImageFile im) ->
  wf_image im ->
  im_mode im <> Mode_RGB ->
  (forall size, alloc_fault w size = None) ->
  write_fault w output_path = None ->
  exists out,
    add_margin w = (saved w out, inr tt) /\
    im_mode out = Mode_RGBA /\
    xsize out = xsize im + 2 * (xsize im / 5) /\
    ysize out = ysize im + 2 * (ysize im / 5) /\
    (xsize out * ysize out <= 2 * MAX_IMAGE_PIXELS -> wf_image out).
Proof.
  intros Hfs Hwf Hmode Halloc Hwrite.
  destruct (paste_op_accepts _ Hmode) as [op Hop].
  destruct (add_margin_saves w im op Hfs Hwf Hop (Halloc _) Hwrite)
    as (out & Hrun & Hmode' & Hxs & Hys & _ & _ & Hwf' & _).
  exists out. auto.
Qed.

Lemma feed_back_saved (w : world) (out : image) :
  fs (feed_back (saved w out)) !! input_path = Some (ImageFile out) /\
  alloc_fault (feed_back (saved w out)) = alloc_fault w /\
  write_fault (feed_back (saved w out)) = write_fault w.
Proof.
  unfold feed_back, saved. cbn [fs]. rewrite lookup_insert_eq.
  cbn [set_fs fs alloc_fault write_fault]. by rewrite lookup_insert_eq.
Qed.

Lemma output_image_saved (w : world) (out : image) :
  output_image (saved w out) = Some out.
Proof. unfold output_image, saved. cbn [fs]. by rewrite lookup_insert_eq. Qed.

(** After any number of runs the world holds a valid RGBA output that is no
    smaller than the first input, larger where the input has at least 5
    pixels and of the same size where it has at most 4. *)
Lemma runs_invariant (wd : world) (im : image) (n : nat) :
  fs wd !! input_path = Some (ImageFile im) ->
  wf_image im ->
  im_mode im <> Mode_RGB ->
  (forall size, alloc_fault wd size = None) ->
  write_fault wd output_path = None ->
  (forall k o, (k <= n)%nat -> output_image (runs k wd) = Some o ->
               xsize o * ysize o <= 2 * MAX_IMAGE_PIXELS) ->
  exists w o,
    runs n wd = saved w o /\
    alloc_fault w = alloc_fault wd /\ write_fault w = write_fault wd /\
    wf_image o /\ im_mode o = Mode_RGBA /\
    xsize im <= xsize o /\ ysize im <= ysize o /\
    (5 <= xsize im -> xsize im < xsize o) /\
    (5 <= ysize im -> ysize im < ysize o) /\
    (xsize im <= 4 -> xsize o = xsize im) /\
    (ysize im <= 4 -> ysize o = ysize im).
Proof.
  intros Hfs Hwf Hmode Halloc Hwrite. pose proof Hwf as (Hx & Hy & _).
  induction n as [|n IH]; intros Hfit.
  - destruct (run_step wd im Hfs Hwf Hmode Halloc Hwrite)
      as (out & Hrun & Hm & Hxs & Hys & Hwf').
    assert (Hr : runs 0 wd = saved wd out) by (cbn; by rewrite Hrun).
    assert (Hpix : xsize out * ysize out <= 2 * MAX_IMAGE_PIXELS)
      by (apply (Hfit 0%nat out); [lia | by rewrite Hr, output_image_saved]).
    apply Hwf' in Hpix.
    exists wd, out. rewrite Hxs, Hys in *. clear -Hr Hm Hpix Hx Hy.
    repeat match goal with |- _ /\ _ => split end;
      auto; intros; Z.div_mod_to_equations; lia.
  - destruct IH as (w & o & Hr & Ha & Hw & Hwfo & Hmo & Hxo & Hyo & Hxg & Hyg & Hxk & Hyk);
      [intros k o' Hk; apply Hfit; lia|].
    destruct (feed_back_saved w o) as (Hfs' & Ha' & Hw').
    pose proof Hwfo as (Hox & Hoy & _).
    destruct (run_step (feed_back (saved w o)) o) as (out & Hrun & Hm & Hxs & Hys & Hwf');
      [done | done | by rewrite Hmo | intros; rewrite Ha', Ha; apply Halloc
       | by rewrite Hw', Hw |].
    assert (Hr' : runs (S n) wd = saved (feed_back (saved w o)) out)
      by (cbn [runs]; by rewrite Hr, Hrun).
    assert (Hpix : xsize out * ysize out <= 2 * MAX_IMAGE_PIXELS)
      by (apply (Hfit (S n) out); [lia | by rewrite Hr', output_image_saved]).
    apply Hwf' in Hpix.
    exists (feed_back (saved w o)), out.
    split; [done|]. split; [by rewrite Ha'|]. split; [by rewrite Hw'|].
    split; [done|]. split; [done|].
    rewrite Hxs, Hys. clear -Hx Hy Hox Hoy Hxo Hyo Hxg Hyg Hxk Hyk.
    repeat match goal with |- _ /\ _ => split end;
      intros; Z.div_mod_to_equations; lia.
Qed.

(** C9, as the claim states it, fails: a 4x4 image gets margin 0, so its
    output is 4x4 again, and running [add_margin] on that output gives a
    4x4 image once more. *)
Lemma small_image_does_not_grow :
  im_size <$> output_image
    (runs 0 (quiet_world {[ input_path := ImageFile (solid Mode_RGBA 4 4 red) ]}))
  = Some (4, 4) /\
  im_size <$> output_image
    (runs 1 (quiet_world {[ input_path := ImageFile (solid Mode_RGBA 4 4 red) ]}))
  = Some (4, 4).
Proof. split; vm_compute; reflexivity. Qed.

(** C9, amended. The transformation is not idempotent on images with a
    dimension of at least 5 pixels. For every valid input image and every
    number of repeated runs, each on the output of the run before it and
    while the outputs have no more pixels than [Image.open] lets through
    (178,956,970), the next run never shrinks a dimension; a dimension
    that had at least 5 pixels in the input grows strictly, at the first
    run and at every repeated one; a dimension of at most 4 pixels stays as
    it is. *)
Theorem repeated_runs_grow (wd : world) (im : image) (n : nat) :
  fs wd !! input_path = Some (ImageFile im) ->
  wf_image im ->
  im_mode im <> Mode_RGB ->
  (forall size, alloc_fault wd size = None) ->
  write_fault wd output_path = None ->
  (forall k o, (k <= n)%nat -> output_image (runs k wd) = Some o ->
               xsize o * ysize o <= 178956970) ->
  exists o1 o2,
    output_image (runs n wd) = Some o1 /\
    output_image (runs (S n) wd) = Some o2 /\
    xsize im <= xsize o1 <= xsize o2 /\
    ysize im <= ysize o1 <= ysize o2 /\
    (5 <= xsize im -> xsize im < xsize o1 < xsize o2) /\
    (5 <= ysize im -> ysize im < ysize o1 < ysize o2) /\
    (xsize im <= 4 -> xsize o2 = xsize im) /\
    (ysize im <= 4 -> ysize o2 = ysize im).
Proof.
  intros Hfs Hwf Hmode Halloc Hwrite Hfit. pose proof Hwf as (Hx & Hy & _).
  destruct (runs_invariant wd im n Hfs Hwf Hmode Halloc Hwrite Hfit)
    as (w & o & Hr & Ha & Hw & Hwfo & Hmo & Hxo & Hyo & Hxg & Hyg & Hxk & Hyk).
  destruct (feed_back_saved w o) as (Hfs' & Ha' & Hw').
  pose proof Hwfo as (Hox & Hoy & _).
  destruct (run_step (feed_back (saved w o)) o) as (out & Hrun & _ & Hxs & Hys & _);
    [done | done | by rewrite Hmo | intros; rewrite Ha', Ha; apply Halloc
     | by rewrite Hw', Hw |].
  exists o, out.
  split; [by rewrite Hr, output_image_saved|].
  split; [cbn [runs]; rewrite Hr, Hrun; apply output_image_saved|].
  rewrite Hxs, Hys. clear -Hx Hy Hox Hoy Hxo Hyo Hxg Hyg Hxk Hyk.
  repeat match goal with |- _ /\ _ => split end;
    intros; Z.div_mod_to_equations; lia.
Qed.

Lemma repeated_runs_grow_witness :
  exists o1 o2,
    output_image
      (runs 2 (quiet_world {[ input_path := ImageFile (solid Mode_RGBA 10 3 red) ]}))
    = Some o1 /\
    output_image
      (runs 3 (quiet_world {[ input_path := ImageFile (solid Mode_RGBA 10 3 red) ]}))
    = Some o2 /\
    10 <= xsize o1 <= xsize o2 /\
    3 <= ysize o1 <= ysize o2 /\
    (5 <= 10 -> 10 < xsize o1 < xsize o2) /\
    (5 <= 3 -> 3 < ysize o1 < ysize o2) /\
    (10 <= 4 -> xsize o2 = 10) /\
    (3 <= 4 -> ysize o2 = 3).
Proof.
  refine (repeated_runs_grow
            (quiet_world {[ input_path := ImageFile (solid Mode_RGBA 10 3 red) ]})
            (solid Mode_RGBA 10 3 red) 2 _ _ _ _ _ _).
  - reflexivity.
  - apply (bool_decide_unpack _). vm_compute. reflexivity.
  - discriminate.
  - reflexivity.
  - reflexivity.
  - intros k o Hk Ho.
    destruct k as [|[|[|k]]]; [| | | lia];
      vm_compute in Ho; injection Ho as <-; vm_compute; discriminate.
Defined.

(** The widths of the outputs of four runs from a 10x3 image; the height
    stays 3. *)
Example widths_of_repeated_runs :
  (fun n => im_size <$> output_image
              (runs n (quiet_world {[ input_path := ImageFile (solid Mode_RGBA 10 3 red) ]})))
  <$> [0; 1; 2; 3]%nat
  = [Some (14, 3); Some (18, 3); Some (24, 3); Some (32, 3)].
Proof. vm_compute. reflexivity. Qed.

(** C10. For every valid source image of width at most 4 (resp. height at
    most 4) the margin of that dimension is 0 and the saved image has the
    width (resp. height) of the source; nothing rejects such an image, the
    run succeeds, and an image of at most 4x4 pixels keeps its
    dimensions. *)
Theorem small_images_keep_size (wd : world) (im : image) :
  fs wd !! input_path = Some (ImageFile im) ->
  wf_image im ->
  im_mode im <> Mode_RGB ->
  alloc_fault wd (xsize im + 2 * (xsize im / 5), ysize im + 2 * (ysize im / 5)) = None ->
  write_fault wd output_path = None ->
  exists out,
    add_margin wd = (saved wd out, inr tt) /\
    (xsize im <= 4 -> margin (xsize im) = inr 0 /\ xsize out = xsize im) /\
    (ysize im <= 4 -> margin (ysize im) = inr 0 /\ ysize out = ysize im).
Proof.
  intros Hfs Hwf Hmode Halloc Hwrite.
  pose proof Hwf as (Hx & Hy & _).
  destruct (paste_op_accepts _ Hmode) as [op Hop].
  destruct (add_margin_saves wd im op Hfs Hwf Hop Halloc Hwrite)
    as (out & Hrun & _ & Hxs & Hys & _).
  exists out. split; [exact Hrun|].
  split; intros Hsmall.
  - rewrite margin_fifth by lia. rewrite Hxs.
    replace (xsize im / 5) with 0 by (Z.div_mod_to_equations; lia).
    split; [done | lia].
  - rewrite margin_fifth by lia. rewrite Hys.
    replace (ysize im / 5) with 0 by (Z.div_mod_to_equations; lia).
    split; [done | lia].
Qed.

Lemma small_images_keep_size_witness :
  exists out,
    add_margin (quiet_world {[ input_path := ImageFile (solid Mode_RGBA 4 3 red) ]})
    = (saved (quiet_world {[ input_path := ImageFile (solid Mode_RGBA 4 3 red) ]}) out,
       inr tt) /\
    (4 <= 4 -> margin 4 = inr 0 /\ xsize out = 4) /\
    (3 <= 4 -> margin 3 = inr 0 /\ ysize out = 3).
Proof.
  refine (small_images_keep_size
            (quiet_world {[ input_path := ImageFile (solid Mode_RGBA 4 3 red) ]})
            (solid Mode_RGBA 4 3 red) _ _ _ _ _).
  - reflexivity.
  - apply (bool_decide_unpack _). vm_compute. reflexivity.
  - discriminate.
  - reflexivity.
  - reflexivity.
Defined.

(** * Further properties of [add_margin] *)

(** ** What a run can do to the world *)

Lemma ImagingPaste_keeps_header (imOut imIn imMask out : image) (box : Z * Z * Z * Z) :
  ImagingPaste imOut imIn imMask box = inr out ->
  im_mode out = im_mode imOut /\ im_size out = im_size imOut.
Proof.
  unfold ImagingPaste. destruct box as [[[dx0 dy0] dx1] dy1].
  destruct (negb _); [done|]. destruct (negb _); [done|].
  destruct (clip dx0 _ _) as [[xs sx0] dx0'].
  destruct (clip dy0 _ _) as [[ys sy0] dy0'].
  destruct (_ || _); [by intros [= <-]|].
  destruct (paste_op _); [|done]. by intros [= <-].
Qed.

Lemma Image_paste_keeps_header (self out : image) (im mask : opened_image)
    (box : Z * Z) :
  Image_paste self im box mask = inr out ->
  im_mode out = im_mode self /\ im_size out = im_size self.
Proof.
  unfold Image_paste. destruct (load im); [done|]. destruct (load mask); [done|].
  apply ImagingPaste_keeps_header.
Qed.


(** The three outcomes of a run: a failure that left the files alone, a
    failed write that left a partial file at the output path, or a saved
    RGBA image together with the line that reports its dimensions. *)
Lemma add_margin_outcomes (wd : world) :
  (exists e, add_margin wd = (reported wd e, inr tt)) \/
  (exists e partial,
     write_fault wd output_path = Some (e, Some partial) /\
     add_margin wd
     = (World (<[output_path := partial]> (fs wd)) (alloc_fault wd) (write_fault wd)
              (stdout wd ++ ["Error processing image: " +:+ str e]), inr tt)) \/
  (exists out,
     write_fault wd output_path = None /\ im_mode out = Mode_RGBA /\
     add_margin wd = (saved wd out, inr tt)).
Proof.
  unfold add_margin, try_except_Exception, add_margin_body, bind, Image_open,
    Image_new, Image_save, print, lift, ret, raise, set_fs, reported, error_message,
    created_message.
  destruct (fs wd !! input_path) as [f|]; [|left; by eexists].
  destruct (open_file input_path f) as [e|img]; [left; exists e; by destruct e|].
  destruct (o_size img) as [width height].
  destruct (margin width) as [e|mw]; [left; exists e; by destruct e|].
  destruct (margin height) as [e|mh]; [left; exists e; by destruct e|].
  cbn [fst snd].
  destruct ((width + 2 * mw <? 0) || (height + 2 * mh <? 0)); [left; by eexists|].
  destruct (alloc_fault wd _) as [e|]; [left; exists e; by destruct e|].
  destruct (Image_paste _ img (mw, mh) img) as [e|out] eqn:Hpaste;
    [left; exists e; by destruct e|].
  apply Image_paste_keeps_header in Hpaste as [Hmode Hsize]. cbn in Hmode, Hsize.
  destruct (write_fault wd output_path) as [[e [partial|]]|] eqn:Hw.
  - right; left. exists e, partial. split; [done|]. by destruct e.
  - left. exists e. by destruct e.
  - right; right. exists out. split; [done|]. split; [done|].
    unfold saved, xsize, ysize. by rewrite Hsize.
Qed.


(** A run reads the world only through the input path and the two faults:
    two worlds that agree on them get the same change of the output path
    and the same printed line. *)
Lemma add_margin_ext (w w' : world) :
  fs w !! input_path = fs w' !! input_path ->
  alloc_fault w = alloc_fault w' ->
  write_fault w = write_fault w' ->
  exists (u : option file) (line : string),
    add_margin w
    = (World (match u with Some f => <[output_path := f]> (fs w) | None => fs w end)
             (alloc_fault w) (write_fault w) (stdout w ++ [line]), inr tt) /\
    add_margin w'
    = (World (match u with Some f => <[output_path := f]> (fs w') | None => fs w' end)
             (alloc_fault w') (write_fault w') (stdout w' ++ [line]), inr tt).
Proof.
  destruct w as [files alloc write out0], w' as [files' alloc' write' out0'].
  cbn [fs alloc_fault write_fault stdout]. intros Hin <- <-.
  unfold add_margin, try_except_Exception, add_margin_body, bind, Image_open,
    Image_new, Image_save, print, lift, ret, raise, set_fs.
  cbn [fs alloc_fault write_fault stdout]. rewrite <- Hin.
  destruct (files !! input_path) as [f|];
    [|exists None; eexists; split; reflexivity].
  destruct (open_file input_path f) as [e|img];
    [exists None; eexists; destruct e; split; reflexivity|].
  destruct (o_size img) as [width height].
  destruct (margin width) as [e|mw];
    [exists None; eexists; destruct e; split; reflexivity|].
  destruct (margin height) as [e|mh];
    [exists None; eexists; destruct e; split; reflexivity|].
  cbn [fst snd fs alloc_fault write_fault stdout].
  destruct ((width + 2 * mw <? 0) || (height + 2 * mh <? 0));
    [exists None; eexists; split; reflexivity|].
  destruct (alloc (width + 2 * mw, height + 2 * mh)) as [e|];
    [exists None; eexists; destruct e; split; reflexivity|].
  destruct (Image_paste _ img (mw, mh) img) as [e|out];
    [exists None; eexists; destruct e; split; reflexivity|].
  cbn [fs alloc_fault write_fault stdout].
  destruct (write output_path) as [[e [partial|]]|].
  - exists (Some partial). eexists. destruct e; split; reflexivity.
  - exists None. eexists. destruct e; split; reflexivity.
  - exists (Some (ImageFile out)). eexists. split; reflexivity.
Qed.


(** X1. A run writes the output path and nothing else: every other path,
    the input path among them, holds after the run what it held before,
    whether the run succeeded or failed. *)
Theorem other_paths_untouched (wd : world) (path : string) :
  path <> output_path ->
  fs (fst (add_margin wd)) !! path = fs wd !! path.
Proof.
  intros Hpath.
  destruct (add_margin_outcomes wd)
    as [[e ->] | [(e & partial & _ & ->) | (out & _ & _ & ->)]]; cbn.
  - done.
  - by rewrite lookup_insert_ne.
  - by rewrite lookup_insert_ne.
Qed.

Lemma other_paths_untouched_witness :
  fs (fst (add_margin (quiet_world {[ input_path := ImageFile strip_5 ]}))) !! input_path
  = Some (ImageFile strip_5).
Proof.
  refine (other_paths_untouched (quiet_world {[ input_path := ImageFile strip_5 ]})
            input_path _).
  discriminate.
Defined.


(** X2. When the write of the output cannot fail, a run has one of two
    outcomes: it saves an RGBA image at the output path and prints
    "Created new image with dimensions " followed by the width, "x" and the
    height of that image, or it prints "Error processing image: " followed
    by the failure and leaves every file as it was. No failure before the
    save leaves an output. *)
Theorem run_saves_or_reports (wd : world) :
  write_fault wd output_path = None ->
  (exists out,
     im_mode out = Mode_RGBA /\
     add_margin wd
     = (World (<[output_path := ImageFile out]> (fs wd)) (alloc_fault wd)
              (write_fault wd)
              (stdout wd ++
               ["Created new image with dimensions " +:+ pretty (xsize out)
                +:+ "x" +:+ pretty (ysize out)]), inr tt)) \/
  (exists e,
     add_margin wd
     = (World (fs wd) (alloc_fault wd) (write_fault wd)
              (stdout wd ++ ["Error processing image: " +:+ str e]), inr tt)).
Proof.
  intros Hw.
  destruct (add_margin_outcomes wd)
    as [[e He] | [(e & partial & Hw' & _) | (out & _ & Hm & Hrun)]].
  - right. by exists e.
  - congruence.
  - left. by exists out.
Qed.

(** The run on the 10x10 red square is of the first kind. *)
Lemma run_saves_or_reports_witness :
  exists out,
    im_mode out = Mode_RGBA /\
    add_margin (quiet_world {[ input_path := ImageFile (solid Mode_RGBA 10 10 red) ]})
    = (World (<[output_path := ImageFile out]>
                {[ input_path := ImageFile (solid Mode_RGBA 10 10 red) ]})
             (fun _ => None) (fun _ => None)
             ["Created new image with dimensions " +:+ pretty (xsize out)
              +:+ "x" +:+ pretty (ysize out)], inr tt).
Proof.
  destruct (run_saves_or_reports
              (quiet_world {[ input_path := ImageFile (solid Mode_RGBA 10 10 red) ]})
              eq_refl) as [Hsaved | [e He]].
  - exact Hsaved.
  - apply (f_equal (fun r => stdout (fst r))) in He. exfalso.
    vm_compute in He. destruct e; discriminate.
Defined.

(** X3. Run as written, with its fixed file names, the script is
    idempotent on the files: a second run reads the same input, meets the
    same faults, and leaves the files exactly as the first run left them;
    it prints the same line once more. *)
Theorem rerun_is_idempotent (wd : world) :
  fs (fst (add_margin (fst (add_margin wd)))) = fs (fst (add_margin wd)) /\
  exists line,
    stdout (fst (add_margin wd)) = stdout wd ++ [line] /\
    stdout (fst (add_margin (fst (add_margin wd)))) = stdout wd ++ [line; line].
Proof.
  assert (Hin : fs wd !! input_path = fs (fst (add_margin wd)) !! input_path).
  { destruct (add_margin_outcomes wd)
      as [[e ->] | [(e & partial & _ & ->) | (out & _ & _ & ->)]]; cbn;
      by rewrite ?lookup_insert_ne. }
  assert (Hf : alloc_fault wd = alloc_fault (fst (add_margin wd)) /\
               write_fault wd = write_fault (fst (add_margin wd))).
  { destruct (add_margin_outcomes wd)
      as [[e ->] | [(e & partial & _ & ->) | (out & _ & _ & ->)]]; by cbn. }
  destruct Hf as [Ha Hw].
  destruct (add_margin_ext wd (fst (add_margin wd)) Hin Ha Hw)
    as (u & line & H1 & H2).
  rewrite H2. cbn [fst fs stdout]. rewrite H1. cbn [fst fs stdout].
  split.
  - destruct u as [f|]; [apply insert_insert_eq | done].
  - exists line. split; [done|]. by rewrite <- app_assoc.
Qed.


(** X4. The image saved by a successful run on a valid input, when it has
    no more pixels than [Image.open] lets through, is itself a valid RGBA
    image, and the run that takes it as input succeeds and saves an image
    with the margins of that size. *)
Theorem output_is_valid_input (wd : world) (im : image) :
  fs wd !! input_path = Some (ImageFile im) ->
  wf_image im ->
  im_mode im <> Mode_RGB ->
  (forall size, alloc_fault wd size = None) ->
  write_fault wd output_path = None ->
  (xsize im + 2 * (xsize im / 5)) * (ysize im + 2 * (ysize im / 5)) <= 178956970 ->
  exists out out2,
    add_margin wd = (saved wd out, inr tt) /\
    im_mode out = Mode_RGBA /\ wf_image out /\
    add_margin (feed_back (saved wd out)) = (saved (feed_back (saved wd out)) out2, inr tt) /\
    xsize out2 = xsize out + 2 * (xsize out / 5) /\
    ysize out2 = ysize out + 2 * (ysize out / 5).
Proof.
  intros Hfs Hwf Hmode Halloc Hwrite Hpix.
  destruct (run_step wd im Hfs Hwf Hmode Halloc Hwrite)
    as (out & Hrun & Hm & Hxs & Hys & Hwf').
  assert (Hwfo : wf_image out) by (apply Hwf'; by rewrite Hxs, Hys).
  destruct (feed_back_saved wd out) as (Hfs' & Ha' & Hw').
  destruct (run_step (feed_back (saved wd out)) out) as (out2 & Hrun2 & _ & Hxs2 & Hys2 & _);
    [done | done | by rewrite Hm | intros; rewrite Ha'; apply Halloc | by rewrite Hw' |].
  exists out, out2. auto 10.
Qed.

Lemma output_is_valid_input_witness :
  exists out out2,
    add_margin (quiet_world {[ input_path := ImageFile (solid Mode_L 7 7 (Pixel 100 0 0 0)) ]})
    = (saved (quiet_world {[ input_path := ImageFile (solid Mode_L 7 7 (Pixel 100 0 0 0)) ]})
             out, inr tt) /\
    im_mode out = Mode_RGBA /\ wf_image out /\
    add_margin
      (feed_back
         (saved (quiet_world {[ input_path := ImageFile (solid Mode_L 7 7 (Pixel 100 0 0 0)) ]})
                out))
    = (saved
         (feed_back
            (saved (quiet_world {[ input_path := ImageFile (solid Mode_L 7 7 (Pixel 100 0 0 0)) ]})
                   out)) out2, inr tt) /\
    xsize out2 = xsize out + 2 * (xsize out / 5) /\
    ysize out2 = ysize out + 2 * (ysize out / 5).
Proof.
  refine (output_is_valid_input
            (quiet_world {[ input_path := ImageFile (solid Mode_L 7 7 (Pixel 100 0 0 0)) ]})
            (solid Mode_L 7 7 (Pixel 100 0 0 0)) _ _ _ _ _ _).
  - reflexivity.
  - apply (bool_decide_unpack _). vm_compute. reflexivity.
  - discriminate.
  - reflexivity.
  - reflexivity.
  - vm_compute. discriminate.
Defined.

(** A 7x7 grey image gives a 9x9 output, and that output an 11x11 one. *)
Example second_run_on_output :
  im_size <$> output_image
    (runs 1 (quiet_world {[ input_path := ImageFile (solid Mode_L 7 7 (Pixel 100 0 0 0)) ]}))
  = Some (11, 11).
Proof. vm_compute. reflexivity. Qed.

(** X5. When the input path holds a file that is no image, the run prints
    a failure that names the file and leaves every file as it was. *)
Theorem unidentified_input_reported (wd : world) :
  fs wd !! input_path = Some OtherFile ->
  add_margin wd
  = (World (fs wd) (alloc_fault wd) (write_fault wd)
           (stdout wd ++
            ["Error processing image: cannot identify image file 'Logo_Rounded.png'"]),
     inr tt).
Proof.
  intros Hfs.
  unfold add_margin, try_except_Exception, add_margin_body, bind, Image_open.
  by rewrite Hfs.
Qed.

Lemma unidentified_input_reported_witness :
  add_margin (quiet_world {[ input_path := OtherFile ]})
  = (World {[ input_path := OtherFile ]} (fun _ => None) (fun _ => None)
           ["Error processing image: cannot identify image file 'Logo_Rounded.png'"],
     inr tt).
Proof.
  refine (unidentified_input_reported (quiet_world {[ input_path := OtherFile ]}) _).
  reflexivity.
Defined.


(** ** What the paste puts into the block *)

(** X6. For every valid RGBA input image and every alpha, the block of the
    saved image holds the source multiplied by its own alpha: a source
    pixel (r, g, b, a) is found at its place in the block as
    (r a / 255, g a / 255, b a / 255, a a / 255), each rounded to nearest.
    Alpha 255 and alpha 0 are the two cases where this is the source pixel
    or transparent black. *)
Theorem pasted_block_is_premultiplied (wd : world) (im : image) :
  fs wd !! input_path = Some (ImageFile im) ->
  wf_image im ->
  im_mode im = Mode_RGBA ->
  alloc_fault wd (xsize im + 2 * (xsize im / 5), ysize im + 2 * (ysize im / 5)) = None ->
  write_fault wd output_path = None ->
  exists out,
    add_margin wd = (saved wd out, inr tt) /\
    forall (x y : nat) (p : pixel),
      getpixel im x y = Some p ->
      getpixel out (x + Z.to_nat (xsize im / 5)) (y + Z.to_nat (ysize im / 5))
      = Some (Pixel ((band0 p * band3 p + 127) / 255)
                    ((band1 p * band3 p + 127) / 255)
                    ((band2 p * band3 p + 127) / 255)
                    ((band3 p * band3 p + 127) / 255)).
Proof.
  intros Hfs Hwf Hmode Halloc Hwrite.
  assert (Hop : paste_op (im_mode im) = Some paste_mask_RGBA) by (by rewrite Hmode).
  destruct (add_margin_saves wd im _ Hfs Hwf Hop Halloc Hwrite)
    as (out & Hrun & _ & _ & _ & _ & _ & _ & _ & Hin).
  exists out. split; [exact Hrun|].
  intros x y p Hp. rewrite (Hin x y p Hp), Hmode.
  f_equal. apply premultiplied_block. by apply (getpixel_pixel_ok im x y).
Qed.

Lemma pasted_block_is_premultiplied_witness :
  exists out,
    add_margin (quiet_world {[ input_path := ImageFile strip_5 ]})
    = (saved (quiet_world {[ input_path := ImageFile strip_5 ]}) out, inr tt) /\
    forall (x y : nat) (p : pixel),
      getpixel strip_5 x y = Some p ->
      getpixel out (x + 1) (y + 0)
      = Some (Pixel ((band0 p * band3 p + 127) / 255)
                    ((band1 p * band3 p + 127) / 255)
                    ((band2 p * band3 p + 127) / 255)
                    ((band3 p * band3 p + 127) / 255)).
Proof.
  refine (pasted_block_is_premultiplied
            (quiet_world {[ input_path := ImageFile strip_5 ]}) strip_5 _ _ _ _ _).
  - reflexivity.
  - apply (bool_decide_unpack _). vm_compute. reflexivity.
  - reflexivity.
  - reflexivity.
  - reflexivity.
Defined.

(** X7. A greyscale (mode L) source is accepted, and since it is its own
    mask its luminance becomes the alpha: a source pixel of luminance l is
    found in the block as (l l / 255, l l / 255, l l / 255, l), the colour
    rounded to nearest. Only white pixels come out opaque. *)
Theorem greyscale_luminance_becomes_alpha (wd : world) (im : image) :
  fs wd !! input_path = Some (ImageFile im) ->
  wf_image im ->
  im_mode im = Mode_L ->
  alloc_fault wd (xsize im + 2 * (xsize im / 5), ysize im + 2 * (ysize im / 5)) = None ->
  write_fault wd output_path = None ->
  exists out,
    add_margin wd = (saved wd out, inr tt) /\
    forall (x y : nat) (p : pixel),
      getpixel im x y = Some p ->
      getpixel out (x + Z.to_nat (xsize im / 5)) (y + Z.to_nat (ysize im / 5))
      = Some (Pixel ((band0 p * band0 p + 127) / 255)
                    ((band0 p * band0 p + 127) / 255)
                    ((band0 p * band0 p + 127) / 255)
                    (band0 p)).
Proof.
  intros Hfs Hwf Hmode Halloc Hwrite.
  assert (Hop : paste_op (im_mode im) = Some paste_mask_L) by (by rewrite Hmode).
  destruct (add_margin_saves wd im _ Hfs Hwf Hop Halloc Hwrite)
    as (out & Hrun & _ & _ & _ & _ & _ & _ & _ & Hin).
  exists out. split; [exact Hrun|].
  intros x y p Hp. rewrite (Hin x y p Hp), Hmode.
  f_equal. apply greyscale_block. by apply (getpixel_pixel_ok im x y).
Qed.

Lemma greyscale_luminance_becomes_alpha_witness :
  exists out,
    add_margin (quiet_world {[ input_path := ImageFile (solid Mode_L 5 5 (Pixel 100 0 0 0)) ]})
    = (saved (quiet_world {[ input_path := ImageFile (solid Mode_L 5 5 (Pixel 100 0 0 0)) ]})
             out, inr tt) /\
    forall (x y : nat) (p : pixel),
      getpixel (solid Mode_L 5 5 (Pixel 100 0 0 0)) x y = Some p ->
      getpixel out (x + 1) (y + 1)
      = Some (Pixel ((band0 p * band0 p + 127) / 255)
                    ((band0 p * band0 p + 127) / 255)
                    ((band0 p * band0 p + 127) / 255)
                    (band0 p)).
Proof.
  refine (greyscale_luminance_becomes_alpha
            (quiet_world {[ input_path := ImageFile (solid Mode_L 5 5 (Pixel 100 0 0 0)) ]})
            (solid Mode_L 5 5 (Pixel 100 0 0 0)) _ _ _ _ _).
  - reflexivity.
  - apply (bool_decide_unpack _). vm_compute. reflexivity.
  - reflexivity.
  - reflexivity.
  - reflexivity.
Defined.

(** X8. A bilevel (mode 1) source is accepted and pasted as a stencil: a
    set pixel is found in the block as opaque white, a clear pixel leaves
    the block transparent. *)
Theorem bilevel_source_is_a_stencil (wd : world) (im : image) :
  fs wd !! input_path = Some (ImageFile im) ->
  wf_image im ->
  im_mode im = Mode_1 ->
  alloc_fault wd (xsize im + 2 * (xsize im / 5), ysize im + 2 * (ysize im / 5)) = None ->
  write_fault wd output_path = None ->
  exists out,
    add_margin wd = (saved wd out, inr tt) /\
    forall (x y : nat) (p : pixel),
      getpixel im x y = Some p ->
      getpixel out (x + Z.to_nat (xsize im / 5)) (y + Z.to_nat (ysize im / 5))
      = Some (if band0 p =? 0 then Pixel 0 0 0 0 else Pixel 255 255 255 255).
Proof.
  intros Hfs Hwf Hmode Halloc Hwrite.
  assert (Hop : paste_op (im_mode im) = Some paste_mask_1) by (by rewrite Hmode).
  destruct (add_margin_saves wd im _ Hfs Hwf Hop Halloc Hwrite)
    as (out & Hrun & _ & _ & _ & _ & _ & _ & _ & Hin).
  exists out. split; [exact Hrun|].
  intros x y p Hp. rewrite (Hin x y p Hp), Hmode.
  f_equal. apply bilevel_block.
Qed.

Lemma bilevel_source_is_a_stencil_witness :
  exists out,
    add_margin
      (quiet_world
         {[ input_path := ImageFile (Image Mode_1 (2, 1) [[Pixel 255 0 0 0; Pixel 0 0 0 0]]) ]})
    = (saved
         (quiet_world
            {[ input_path :=
                 ImageFile (Image Mode_1 (2, 1) [[Pixel 255 0 0 0; Pixel 0 0 0 0]]) ]})
         out, inr tt) /\
    forall (x y : nat) (p : pixel),
      getpixel (Image Mode_1 (2, 1) [[Pixel 255 0 0 0; Pixel 0 0 0 0]]) x y = Some p ->
      getpixel out (x + 0) (y + 0)
      = Some (if band0 p =? 0 then Pixel 0 0 0 0 else Pixel 255 255 255 255).
Proof.
  refine (bilevel_source_is_a_stencil
            (quiet_world
               {[ input_path :=
                    ImageFile (Image Mode_1 (2, 1) [[Pixel 255 0 0 0; Pixel 0 0 0 0]]) ]})
            (Image Mode_1 (2, 1) [[Pixel 255 0 0 0; Pixel 0 0 0 0]]) _ _ _ _ _).
  - reflexivity.
  - apply (bool_decide_unpack _). vm_compute. reflexivity.
  - reflexivity.
  - reflexivity.
  - reflexivity.
Defined.

(** ** What [Image.open] finds out, and when *)

(** X9. A source whose header decodes and whose pixel data does not is
    found out late: [Image.open] succeeds, the size is read and the canvas
    is allocated before the paste loads the pixels. So a failure of the
    allocation is the one that is printed, and the decoder's failure is
    printed only when the allocation succeeded. The files are as they
    were. *)
Theorem truncated_input_reported (wd : world) (m : mode) (width height : Z)
    (cause : string) :
  fs wd !! input_path = Some (TruncatedImageFile m (width, height) cause) ->
  1 <= width -> 1 <= height -> width * height <= 178956970 ->
  add_margin wd
  = (World (fs wd) (alloc_fault wd) (write_fault wd)
           (stdout wd ++
            ["Error processing image: " +:+
             str (match alloc_fault wd (width + 2 * (width / 5), height + 2 * (height / 5)) with
                  | Some e => e
                  | None => OSError cause
                  end)]), inr tt).
Proof.
  intros Hfs Hw Hh Hpix.
  destruct (pixel_limit_sides width height Hw Hh Hpix) as [Hwm Hhm].
  unfold add_margin, try_except_Exception, add_margin_body, Image_open.
  unfold bind at 1. rewrite Hfs. cbn [open_file].
  rewrite check_header_ok by done. cbn [o_size].
  unfold bind at 1. rewrite margin_fifth by (unfold INT_MAX in *; lia). cbn [lift ret].
  unfold bind at 1. rewrite margin_fifth by (unfold INT_MAX in *; lia). cbn [lift ret].
  unfold bind at 1, Image_new. cbn [fst snd].
  assert (0 <= width / 5) by (apply Z.div_pos; lia).
  assert (0 <= height / 5) by (apply Z.div_pos; lia).
  destruct (Z.ltb_spec (width + 2 * (width / 5)) 0); [lia|].
  destruct (Z.ltb_spec (height + 2 * (height / 5)) 0); [lia|].
  cbn [orb].
  destruct (alloc_fault wd (width + 2 * (width / 5), height + 2 * (height / 5))) as [e|].
  - by destruct e.
  - reflexivity.
Qed.

(** The allocation fails: its failure is printed, not the decoder's. *)
Lemma truncated_input_reported_witness :
  add_margin (World {[ input_path := TruncatedImageFile Mode_RGBA (10, 10)
                                       "image file is truncated" ]}
                    (fun _ => Some MemoryError) (fun _ => None) [])
  = (World {[ input_path := TruncatedImageFile Mode_RGBA (10, 10)
                              "image file is truncated" ]}
           (fun _ => Some MemoryError) (fun _ => None)
           ["Error processing image: " +:+ str MemoryError], inr tt).
Proof.
  refine (truncated_input_reported
            (World {[ input_path := TruncatedImageFile Mode_RGBA (10, 10)
                                      "image file is truncated" ]}
                   (fun _ => Some MemoryError) (fun _ => None) [])
            Mode_RGBA 10 10 "image file is truncated" _ _ _ _).
  - reflexivity.
  - lia.
  - lia.
  - lia.
Defined.

(** X10. A source with more than 178,956,970 pixels is refused by
    [Image.open] as a decompression bomb before anything else is done: the
    run prints the failure with the number of pixels and the limit, and
    leaves every file as it was. *)
Theorem oversized_input_reported (wd : world) (im : image) :
  fs wd !! input_path = Some (ImageFile im) ->
  1 <= xsize im -> 1 <= ysize im ->
  178956970 < xsize im * ysize im ->
  add_margin wd
  = (World (fs wd) (alloc_fault wd) (write_fault wd)
           (stdout wd ++
            ["Error processing image: Image size (" +:+ pretty (xsize im * ysize im)
             +:+ " pixels) exceeds limit of 178956970 pixels, "
             +:+ "could be decompression bomb DOS attack."]), inr tt).
Proof.
  intros Hfs Hx Hy Hpix.
  unfold add_margin, try_except_Exception, add_margin_body, Image_open.
  unfold bind at 1. rewrite Hfs. cbn [open_file].
  unfold check_header, decompression_bomb_check.
  fold (xsize im) (ysize im).
  destruct (Z.leb_spec (xsize im) 0); [lia|].
  destruct (Z.leb_spec (ysize im) 0); [lia|].
  cbn [orb]. rewrite !Z.max_r by lia. cbv zeta.
  destruct (Z.ltb_spec (2 * MAX_IMAGE_PIXELS) (xsize im * ysize im));
    [|unfold MAX_IMAGE_PIXELS in *; lia].
  reflexivity.
Qed.

Lemma oversized_input_reported_witness :
  add_margin (quiet_world {[ input_path := ImageFile (Image Mode_RGBA (20000, 20000) []) ]})
  = (World {[ input_path := ImageFile (Image Mode_RGBA (20000, 20000) []) ]}
           (fun _ => None) (fun _ => None)
           ["Error processing image: Image size (" +:+ pretty (20000 * 20000)
            +:+ " pixels) exceeds limit of 178956970 pixels, "
            +:+ "could be decompression bomb DOS attack."], inr tt).
Proof.
  refine (oversized_input_reported
            (quiet_world {[ input_path := ImageFile (Image Mode_RGBA (20000, 20000) []) ]})
            (Image Mode_RGBA (20000, 20000) []) _ _ _ _).
  - reflexivity.
  - vm_compute. discriminate.
  - vm_compute. discriminate.
  - vm_compute. reflexivity.
Defined.

(** The line of that run. *)
Example oversized_input_line :
  stdout (fst (add_margin
                 (quiet_world
                    {[ input_path := ImageFile (Image Mode_RGBA (20000, 20000) []) ]})))
  = ["Error processing image: Image size (400000000 pixels) exceeds limit of 178956970 pixels, could be decompression bomb DOS attack."].
Proof. vm_compute. reflexivity. Qed.
